(** * Coda MCP server: credential resolver, API client and worker entry point

    A shallow embedding of [src/types/env.ts] (credential resolver),
    [src/client.ts] (the API client) and [src/index.ts] (the worker's fetch
    handler), with the properties the specification states about them.

    Conventions of the embedding:
    - a JavaScript string is the [string] of its UTF-8 bytes;
    - a JavaScript number is an integer ([Finite z]) or [NaN]; the numbers the
      client handles (status codes, page sizes, retry delays) are integers;
    - a JavaScript object used as a dictionary (header sets) is a [gmap]; an
      object whose enumeration order matters ([Object.entries]) is the list
      of its entries in enumeration order;
    - [async] functions are computations in the monad [M], which threads the
      log of effects (outbound calls, reads of a response body) and either
      returns a value or throws. *)

From Stdlib Require Import ZArith NArith Ascii String List Bool Lia.
From Stdlib Require Import DecimalString.
From Stdlib Require DecimalPos.
From stdpp Require Import base option gmap strings list fin_maps.

Open Scope string_scope.
Open Scope Z_scope.

(* ===================================================================== *)
(** * Strings and characters *)
(* ===================================================================== *)

Definition code (c : ascii) : N := N_of_ascii c.

Definition isDigit (c : ascii) : bool :=
  ((48 <=? code c) && (code c <=? 57))%N.

Definition isUpper (c : ascii) : bool :=
  ((65 <=? code c) && (code c <=? 90))%N.

Definition isLower (c : ascii) : bool :=
  ((97 <=? code c) && (code c <=? 122))%N.

Definition isAlnum (c : ascii) : bool := isDigit c || isUpper c || isLower c.

Definition charIn (c : ascii) (cs : list ascii) : bool :=
  existsb (Ascii.eqb c) cs.

(** Upper-case hexadecimal digit of a value below 16. *)
Definition hexDigit (n : N) : ascii :=
  if (n <? 10)%N then ascii_of_N (48 + n) else ascii_of_N (55 + n).

(** [%XX] escape of one byte. *)
Definition percentEncodeByte (c : ascii) : string :=
  String "%" (String (hexDigit (code c / 16)) (String (hexDigit (code c mod 16)) "")).

(** ECMAScript [encodeURIComponent]: every byte of the UTF-8 encoding is
    escaped except the unreserved set [A-Z a-z 0-9 - _ . ! ~ * ' ( )].
    (A string with an unpaired surrogate, on which it throws, has no UTF-8
    form and is outside the model.) *)
Definition uriUnreserved (c : ascii) : bool :=
  isAlnum c || charIn c ["-"; "_"; "."; "!"; "~"; "*"; "'"; "("; ")"]%char.

Fixpoint encodeURIComponent (s : string) : string :=
  match s with
  | EmptyString => EmptyString
  | String c r =>
      (if uriUnreserved c then String c "" else percentEncodeByte c)
        +:+ encodeURIComponent r
  end.

(** The [application/x-www-form-urlencoded] byte serializer used by
    [URLSearchParams.prototype.toString]: space becomes [+], the bytes
    [* - . 0-9 A-Z _ a-z] stay, every other byte is escaped. *)
Definition formUrlencodedByte (c : ascii) : string :=
  if Ascii.eqb c " " then "+"
  else if isAlnum c || charIn c ["*"; "-"; "."; "_"]%char then String c ""
  else percentEncodeByte c.

Fixpoint formUrlencoded (s : string) : string :=
  match s with
  | EmptyString => EmptyString
  | String c r => formUrlencodedByte c +:+ formUrlencoded r
  end.

(** ASCII lower-casing, as applied to header names by [Headers]. *)
Definition lowerChar (c : ascii) : ascii :=
  if isUpper c then ascii_of_N (code c + 32) else c.

Fixpoint lowercase (s : string) : string :=
  match s with
  | EmptyString => EmptyString
  | String c r => String (lowerChar c) (lowercase r)
  end.

Fixpoint joinWith (sep : string) (l : list string) : string :=
  match l with
  | [] => ""
  | [x] => x
  | x :: r => x +:+ sep +:+ joinWith sep r
  end.

(* ===================================================================== *)
(** * JavaScript values *)
(* ===================================================================== *)

Inductive number : Type :=
| Finite (z : Z)
| NaN.

#[warnings="-register-all"]
Inductive JSValue : Type :=
| JUndefined
| JNull
| JBool (b : bool)
| JNum (n : number)
| JStr (s : string)
| JArr (l : list JSValue)
| JObj (fields : list (string * JSValue)).

(** Decimal notation, as [String(n)] prints an integer below [10^21]. *)
Definition stringOfZ (z : Z) : string := NilZero.string_of_int (Z.to_int z).

Definition numberToString (n : number) : string :=
  match n with
  | Finite z => stringOfZ z
  | NaN => "NaN"
  end.

(** [String(v)]. Arrays print their elements separated by commas, with
    [null] and [undefined] elements printed as nothing. *)
Fixpoint js_String (v : JSValue) : string :=
  match v with
  | JUndefined => "undefined"
  | JNull => "null"
  | JBool true => "true"
  | JBool false => "false"
  | JNum n => numberToString n
  | JStr s => s
  | JArr l =>
      joinWith ","
        (List.map (fun e => match e with
                            | JUndefined | JNull => ""
                            | _ => js_String e
                            end) l)
  | JObj _ => "[object Object]"
  end.

(** Truthiness ([!!v], the test of [if], [||] and [?:]). *)
Definition truthy (v : JSValue) : bool :=
  match v with
  | JUndefined | JNull => false
  | JBool b => b
  | JNum (Finite z) => negb (z =? 0)
  | JNum NaN => false
  | JStr s => negb (String.eqb s "")
  | JArr _ | JObj _ => true
  end.

(** [a || b]. *)
Definition js_or (a b : JSValue) : JSValue := if truthy a then a else b.

Definition truthyString (s : string) : bool := negb (String.eqb s "").

(** A string or [null]/[undefined], as returned by [Headers.get] or read
    from an optional field. *)
Definition ofOptString (o : option string) : JSValue :=
  match o with
  | Some s => JStr s
  | None => JUndefined
  end.

(** [o || undefined] for an optional string: the empty string is dropped. *)
Definition orUndefined (o : option string) : option string :=
  match o with
  | Some s => if truthyString s then Some s else None
  | None => None
  end.

Fixpoint assocLookup (k : string) (fields : list (string * JSValue)) : option JSValue :=
  match fields with
  | [] => None
  | (k', v) :: r => if String.eqb k k' then Some v else assocLookup k r
  end.

(** Property read [v.k]. Reading a property of [null] or [undefined] throws
    a [TypeError] ([None]); a missing property reads as [undefined]. None of
    the property names the client reads ([items], [nextPageToken],
    [nextPageLink], [message], [error], [name]) exists on the prototypes of
    strings, numbers, booleans or arrays. *)
Definition getProp (v : JSValue) (k : string) : option JSValue :=
  match v with
  | JUndefined | JNull => None
  | JObj fields =>
      match assocLookup k fields with
      | Some x => Some x
      | None => Some JUndefined
      end
  | _ => Some JUndefined
  end.

(* ===================================================================== *)
(** * [parseInt(s, 10)] *)
(* ===================================================================== *)

Definition bytes (l : list N) : string :=
  fold_right (fun n s => String (ascii_of_N n) s) "" l.

(** The white space and line terminators [parseInt] skips, as UTF-8 byte
    sequences: TAB, LF, VT, FF, CR, SP, NBSP, the BOM, LS, PS and the
    space separators of Unicode. *)
Definition jsWhiteSpace : list string :=
  List.map bytes
    [ [9]; [10]; [11]; [12]; [13]; [32]; [194; 160]; [239; 187; 191];
      [226; 128; 168]; [226; 128; 169]; [225; 154; 128];
      [226; 128; 128]; [226; 128; 129]; [226; 128; 130]; [226; 128; 131];
      [226; 128; 132]; [226; 128; 133]; [226; 128; 134]; [226; 128; 135];
      [226; 128; 136]; [226; 128; 137]; [226; 128; 138];
      [226; 128; 175]; [226; 129; 159]; [227; 128; 128] ]%N.

Fixpoint dropPrefix (p s : string) : option string :=
  match p, s with
  | EmptyString, _ => Some s
  | String a p', String b s' => if Ascii.eqb a b then dropPrefix p' s' else None
  | String _ _, EmptyString => None
  end.

Definition dropOneWhiteSpace (s : string) : option string :=
  fold_right (fun w acc => match dropPrefix w s with
                           | Some r => Some r
                           | None => acc
                           end) None jsWhiteSpace.

Fixpoint trimStart (fuel : nat) (s : string) : string :=
  match fuel with
  | O => s
  | S f => match dropOneWhiteSpace s with
           | Some r => trimStart f r
           | None => s
           end
  end.

(** Value of the longest prefix of decimal digits, [None] when it is empty. *)
Fixpoint digitsValue (acc : option Z) (s : string) : option Z :=
  match s with
  | String c r =>
      if isDigit c
      then digitsValue (Some (10 * default 0 acc + Z.of_N (code c - 48))) r
      else acc
  | EmptyString => acc
  end.

(** [parseInt(input, 10)]: leading white space is skipped, then an optional
    sign and the longest run of decimal digits are read; without a digit the
    result is [NaN]. The value is kept exact where JavaScript rounds it to a
    double. *)
Definition parseInt10 (input : string) : number :=
  let s := trimStart (String.length input) input in
  let '(sign, s) :=
    match s with
    | String "-" r => (-1, r)
    | String "+" r => (1, r)
    | _ => (1, s)
    end in
  match digitsValue None s with
  | Some v => Finite (sign * v)
  | None => NaN
  end.

(* ===================================================================== *)
(** * Errors *)
(* ===================================================================== *)

(** Modelled from the spec: the error classes of [src/utils/errors.ts], which
    is not among the sources. The specification describes a closed set of
    three kinds, told apart by kind and not by message: [AuthenticationError],
    [RateLimitError] (carrying the retry-after seconds) and [CodaApiError]
    (carrying the upstream message and the HTTP status). Each constructor
    holds the arguments the code passes to [new]. [PlainError] stands for the
    built-in errors: [new Error(msg)], the [TypeError] of a property read on
    [undefined], the [SyntaxError] of a failed JSON parse and the rejection
    of [fetch]. *)
Inductive JSError : Type :=
| PlainError (name : string) (message : string)
| AuthenticationError (message : string)
| RateLimitError (message : string) (retryAfterSeconds : number)
| CodaApiError (message : JSValue) (status : Z).

Inductive ErrorKind : Type :=
| KindError
| KindAuthentication
| KindRateLimit
| KindCodaApi.

Definition errorKind (e : JSError) : ErrorKind :=
  match e with
  | PlainError _ _ => KindError
  | AuthenticationError _ => KindAuthentication
  | RateLimitError _ _ => KindRateLimit
  | CodaApiError _ _ => KindCodaApi
  end.

(** [error.message]. *)
Definition errorMessage (e : JSError) : string :=
  match e with
  | PlainError _ m => m
  | AuthenticationError m => m
  | RateLimitError m _ => m
  | CodaApiError m _ => js_String m
  end.

(** The [TypeError] V8 raises for [v.k] when [v] is [undefined] or [null]. *)
Definition propertyTypeError (v : JSValue) (k : string) : JSError :=
  PlainError "TypeError"
    ("Cannot read properties of " +:+ js_String v +:+ " (reading '" +:+ k +:+ "')").

Inductive Outcome (A : Type) : Type :=
| Returns (a : A)
| Throws (e : JSError).

Arguments Returns {A} a.
Arguments Throws {A} e.

(* ===================================================================== *)
(** * Tenant credentials ([src/types/env.ts]) *)
(* ===================================================================== *)

Record TenantCredentials : Type := {
  apiKey : option string;
  baseUrl : option string;
}.

(** A [Headers] object: header names are stored lower-cased and [get]
    lower-cases the name it is asked for; an absent header reads as [null]. *)
Definition Headers_get (h : gmap string string) (name : string) : option string :=
  h !! lowercase name.

(** An inbound request, with the path of its URL already parsed. *)
Record Request : Type := {
  req_method : string;
  req_pathname : string;
  req_headers : gmap string string;
}.

Definition parseTenantCredentials (request : Request) : TenantCredentials :=
  let headers := req_headers request in
  {| apiKey := orUndefined (Headers_get headers "X-Coda-API-Key");
     baseUrl := orUndefined (Headers_get headers "X-Coda-Base-URL") |}.

Definition validateCredentials (credentials : TenantCredentials) : Outcome unit :=
  if negb (truthy (ofOptString (apiKey credentials)))
  then Throws (PlainError "Error" "Missing credentials. Provide X-Coda-API-Key header.")
  else Returns tt.

(* ===================================================================== *)
(** * Effects: outbound calls and reads of a response body *)
(* ===================================================================== *)

(** The second argument of [fetch], restricted to the fields the client sets. *)
Record RequestInit : Type := {
  init_method : option string;
  (** the value handed to [JSON.stringify] to make the body *)
  init_body : option JSValue;
  init_headers : option (gmap string string);
}.

Definition noOptions : RequestInit :=
  {| init_method := None; init_body := None; init_headers := None |}.

Record FetchCall : Type := {
  call_url : string;
  call_method : option string;
  call_body : option JSValue;
  call_headers : gmap string string;
}.

Record Response : Type := {
  status : Z;
  headers : gmap string string;
  body : string;
}.

(** [response.ok]. *)
Definition ok (r : Response) : bool := (200 <=? status r) && (status r <=? 299).

Inductive Event : Type :=
| EvFetch (call : FetchCall)
| EvText
| EvJson.

Inductive FetchResult : Type :=
| Responds (r : Response)
| Rejects (message : string).

(** The log of effects, oldest first. *)
Definition record (log : list Event) (e : Event) : list Event := (log ++ [e])%list.

Definition M (A : Type) : Type := list Event -> Outcome A * list Event.

Definition ret {A} (a : A) : M A := fun log => (Returns a, log).

Definition throw {A} (e : JSError) : M A := fun log => (Throws e, log).

Definition bind {A B} (m : M A) (k : A -> M B) : M B :=
  fun log =>
    match m log with
    | (Returns a, log') => k a log'
    | (Throws e, log') => (Throws e, log')
    end.

Definition liftOutcome {A} (o : Outcome A) : M A := fun log => (o, log).

(** [try { m } catch (error) { h error }]. *)
Definition tryCatch {A} (m : M A) (h : JSError -> M A) : M A :=
  fun log =>
    match m log with
    | (Returns a, log') => (Returns a, log')
    | (Throws e, log') => h e log'
    end.

Notation "'let*' x ':=' m 'in' k" := (bind m (fun x => k))
  (at level 10, x pattern, m at level 100, k at level 200).

(** [{...a, ...b}] on header dictionaries: the entries of [b] win. *)
Definition spread (a b : gmap string string) : gmap string string := b ∪ a.

(** What the runtime supplies and the sources do not contain: the remote
    API behind [fetch], whose answer may depend on everything done so far,
    and the JSON parser (a value, or the message of its [SyntaxError]). *)
Class Runtime : Type := {
  upstream : list Event -> FetchCall -> FetchResult;
  JSON_parse : string -> JSValue + string;
}.

Section Effects.
Context `{Runtime}.

(** [await fetch(url, { ...init, headers: hdrs })]; a rejected [fetch]
    throws a [TypeError]. The call is logged whether it is answered or not. *)
Definition fetch (url : string) (init : RequestInit) (hdrs : gmap string string)
  : M Response :=
  fun log =>
    let call := {| call_url := url; call_method := init_method init;
                   call_body := init_body init; call_headers := hdrs |} in
    match upstream log call with
    | Responds r => (Returns r, record log (EvFetch call))
    | Rejects msg => (Throws (PlainError "TypeError" msg), record log (EvFetch call))
    end.

(** [await response.text()]. *)
Definition response_text (r : Response) : M string :=
  fun log => (Returns (body r), record log EvText).

(** [response.json()]. *)
Definition response_json (r : Response) : M JSValue :=
  fun log =>
    match JSON_parse (body r) with
    | inl v => (Returns v, record log EvJson)
    | inr msg => (Throws (PlainError "SyntaxError" msg), record log EvJson)
    end.

End Effects.

(** [v.k] as a computation: a [TypeError] on [undefined] and [null]. *)
Definition prop {A} (v : JSValue) (k : string) (cont : JSValue -> M A) : M A :=
  match getProp v k with
  | Some x => cont x
  | None => throw (propertyTypeError v k)
  end.

(* ===================================================================== *)
(** * The API client ([src/client.ts]) *)
(* ===================================================================== *)

Definition API_BASE_URL : string := "https://coda.io/apis/v1".

Record CodaClientImpl : Type := {
  this_credentials : TenantCredentials;
  this_baseUrl : string;
}.

(** The constructor. [credentials.baseUrl || API_BASE_URL]. *)
Definition new_CodaClientImpl (credentials : TenantCredentials) : CodaClientImpl :=
  {| this_credentials := credentials;
     this_baseUrl := match baseUrl credentials with
                     | Some url => if truthyString url then url else API_BASE_URL
                     | None => API_BASE_URL
                     end |}.

Definition createCodaClient (credentials : TenantCredentials) : CodaClientImpl :=
  new_CodaClientImpl credentials.

Definition getAuthHeaders (this : CodaClientImpl) : Outcome (gmap string string) :=
  match apiKey (this_credentials this) with
  | Some key =>
      if truthyString key
      then Returns (<["Content-Type" := "application/json"]>
                      {["Authorization" := "Bearer " +:+ key]})
      else Throws (AuthenticationError
                     "No credentials provided. Include X-Coda-API-Key header.")
  | None => Throws (AuthenticationError
                      "No credentials provided. Include X-Coda-API-Key header.")
  end.

(** [errorJson.message || errorJson.error || message] under [try]: a failed
    parse and a property read on [null] both leave the default message. *)
Definition errorMessageOf `{Runtime} (errorBody : string) (message : JSValue) : JSValue :=
  match JSON_parse errorBody with
  | inl errorJson =>
      match getProp errorJson "message", getProp errorJson "error" with
      | Some m, Some e => js_or (js_or m e) message
      | _, _ => message
      end
  | inr _ => message
  end.

Definition request `{Runtime} (this : CodaClientImpl) (endpoint : string)
    (options : RequestInit) : M JSValue :=
  let url := this_baseUrl this +:+ endpoint in
  let* auth := liftOutcome (getAuthHeaders this) in
  let* response :=
    fetch url options (spread auth (default ∅ (init_headers options))) in
  (* Handle rate limiting *)
  if status response =? 429 then
    let retryAfter := Headers_get (headers response) "Retry-After" in
    throw (RateLimitError "Rate limit exceeded"
             (match retryAfter with
              | Some h => if truthyString h then parseInt10 h else Finite 60
              | None => Finite 60
              end))
  (* Handle authentication errors *)
  else if (status response =? 401) || (status response =? 403) then
    throw (AuthenticationError "Authentication failed. Check your API credentials.")
  (* Handle other errors *)
  else if negb (ok response) then
    let* errorBody := response_text response in
    let message := JStr ("API error: " +:+ numberToString (Finite (status response))) in
    throw (CodaApiError (errorMessageOf errorBody message) (status response))
  (* Handle 202 Accepted (async operations) *)
  else if status response =? 202 then response_json response
  (* Handle 204 No Content *)
  else if status response =? 204 then ret JUndefined
  else response_json response.

(** [URLSearchParams]: the list of its name/value pairs. *)
Definition URLSearchParams : Type := list (string * string).

Definition usp_append (q : URLSearchParams) (k v : string) : URLSearchParams :=
  (q ++ [(k, v)])%list.

Fixpoint usp_remove (k : string) (q : URLSearchParams) : URLSearchParams :=
  match q with
  | [] => []
  | (k', v') :: r =>
      if String.eqb k' k then usp_remove k r else (k', v') :: usp_remove k r
  end.

(** [set]: the first pair named [k] takes the value and the others are
    removed; without such a pair, [set] appends. *)
Fixpoint usp_set (q : URLSearchParams) (k v : string) : URLSearchParams :=
  match q with
  | [] => [(k, v)]
  | (k', v') :: r =>
      if String.eqb k' k then (k, v) :: usp_remove k r
      else (k', v') :: usp_set r k v
  end.

Definition usp_toString (q : URLSearchParams) : string :=
  joinWith "&"
    (List.map (fun '(k, v) => formUrlencoded k +:+ "=" +:+ formUrlencoded v) q).

(** [params] is [Object.entries(params)]. *)
Definition buildQueryString (params : list (string * JSValue)) : string :=
  let query :=
    fold_left
      (fun query '(key, value) =>
         match value with
         | JUndefined | JNull => query
         | JArr l => fold_left (fun q v => usp_append q key (js_String v)) l query
         | _ => usp_set query key (js_String value)
         end)
      params ([] : URLSearchParams) in
  let queryString := usp_toString query in
  if truthyString queryString then "?" +:+ queryString else "".

Record PaginatedResponse : Type := {
  items : JSValue;
  nextPageToken : JSValue;
  nextPageLink : JSValue;
  hasMore : bool;
}.

(** The object literal every listing operation returns:
    [{ items: response.items, nextPageToken: response.nextPageToken,
       nextPageLink: response.nextPageLink, hasMore: !!response.nextPageToken }]. *)
Definition paginated (response : JSValue) : M PaginatedResponse :=
  prop response "items" (fun i =>
  prop response "nextPageToken" (fun t =>
  prop response "nextPageLink" (fun l =>
  prop response "nextPageToken" (fun t' =>
  ret {| items := i; nextPageToken := t; nextPageLink := l; hasMore := truthy t' |})))).

Definition withMethod (m : string) : RequestInit :=
  {| init_method := Some m; init_body := None; init_headers := None |}.

Definition withBody (m : string) (b : JSValue) : RequestInit :=
  {| init_method := Some m; init_body := Some b; init_headers := None |}.

(** An optional parameter object, [params || {}]. *)
Definition orEmpty (params : option (list (string * JSValue))) : list (string * JSValue) :=
  default [] params.

Section Operations.
Context `{Runtime}.
Variable this : CodaClientImpl.

Definition whoami : M JSValue := request this "/whoami" noOptions.

Definition testConnection : M (bool * string) :=
  tryCatch
    (let* user := whoami in
     prop user "name" (fun name =>
     ret (true, "Successfully connected as " +:+ js_String name)))
    (fun error => ret (false, errorMessage error)).

(* Docs *)

Definition listDocs (params : option (list (string * JSValue))) : M PaginatedResponse :=
  let queryString := buildQueryString (orEmpty params) in
  let* response := request this ("/docs" +:+ queryString) noOptions in
  paginated response.

Definition getDoc (docId : string) : M JSValue :=
  request this ("/docs/" +:+ encodeURIComponent docId) noOptions.

Definition createDoc (input : JSValue) : M JSValue :=
  request this "/docs" (withBody "POST" input).

Definition deleteDoc (docId : string) : M unit :=
  let* _ := request this ("/docs/" +:+ encodeURIComponent docId) (withMethod "DELETE") in
  ret tt.

(* Pages *)

Definition listPages (docId : string) (params : option (list (string * JSValue)))
  : M PaginatedResponse :=
  let queryString := buildQueryString (orEmpty params) in
  let* response :=
    request this ("/docs/" +:+ encodeURIComponent docId +:+ "/pages" +:+ queryString)
      noOptions in
  paginated response.

Definition getPage (docId pageIdOrName : string) : M JSValue :=
  request this
    ("/docs/" +:+ encodeURIComponent docId +:+ "/pages/" +:+ encodeURIComponent pageIdOrName)
    noOptions.

Definition createPage (docId : string) (input : JSValue) : M JSValue :=
  request this ("/docs/" +:+ encodeURIComponent docId +:+ "/pages") (withBody "POST" input).

Definition updatePage (docId pageIdOrName : string) (input : JSValue) : M JSValue :=
  request this
    ("/docs/" +:+ encodeURIComponent docId +:+ "/pages/" +:+ encodeURIComponent pageIdOrName)
    (withBody "PUT" input).

(* Tables *)

Definition listTables (docId : string) (params : option (list (string * JSValue)))
  : M PaginatedResponse :=
  let queryString := buildQueryString (orEmpty params) in
  let* response :=
    request this ("/docs/" +:+ encodeURIComponent docId +:+ "/tables" +:+ queryString)
      noOptions in
  paginated response.

Definition getTable (docId tableIdOrName : string) : M JSValue :=
  request this
    ("/docs/" +:+ encodeURIComponent docId +:+ "/tables/" +:+ encodeURIComponent tableIdOrName)
    noOptions.

(* Columns *)

Definition listColumns (docId tableIdOrName : string)
    (params : option (list (string * JSValue))) : M PaginatedResponse :=
  let queryString := buildQueryString (orEmpty params) in
  let* response :=
    request this
      ("/docs/" +:+ encodeURIComponent docId +:+ "/tables/"
         +:+ encodeURIComponent tableIdOrName +:+ "/columns" +:+ queryString)
      noOptions in
  paginated response.

Definition getColumn (docId tableIdOrName columnIdOrName : string) : M JSValue :=
  request this
    ("/docs/" +:+ encodeURIComponent docId +:+ "/tables/"
       +:+ encodeURIComponent tableIdOrName +:+ "/columns/"
       +:+ encodeURIComponent columnIdOrName)
    noOptions.

(* Rows *)

Definition listRows (docId tableIdOrName : string)
    (params : option (list (string * JSValue))) : M PaginatedResponse :=
  let queryString := buildQueryString (orEmpty params) in
  let* response :=
    request this
      ("/docs/" +:+ encodeURIComponent docId +:+ "/tables/"
         +:+ encodeURIComponent tableIdOrName +:+ "/rows" +:+ queryString)
      noOptions in
  paginated response.

(** [useColumnNames = false]: an omitted flag ([None]) takes the default. *)
Definition getRow (docId tableIdOrName rowIdOrName : string)
    (useColumnNames : option bool) : M JSValue :=
  let queryString := if default false useColumnNames then "?useColumnNames=true" else "" in
  request this
    ("/docs/" +:+ encodeURIComponent docId +:+ "/tables/"
       +:+ encodeURIComponent tableIdOrName +:+ "/rows/"
       +:+ encodeURIComponent rowIdOrName +:+ queryString)
    noOptions.

Definition upsertRows (docId tableIdOrName : string) (input : JSValue)
    (disableParsing : option bool) : M JSValue :=
  let queryString := if default false disableParsing then "?disableParsing=true" else "" in
  request this
    ("/docs/" +:+ encodeURIComponent docId +:+ "/tables/"
       +:+ encodeURIComponent tableIdOrName +:+ "/rows" +:+ queryString)
    (withBody "POST" input).

Definition updateRow (docId tableIdOrName rowIdOrName : string) (input : JSValue)
    (disableParsing : option bool) : M JSValue :=
  let queryString := if default false disableParsing then "?disableParsing=true" else "" in
  request this
    ("/docs/" +:+ encodeURIComponent docId +:+ "/tables/"
       +:+ encodeURIComponent tableIdOrName +:+ "/rows/"
       +:+ encodeURIComponent rowIdOrName +:+ queryString)
    (withBody "PUT" (JObj [("row", input)])).

Definition deleteRow (docId tableIdOrName rowIdOrName : string) : M JSValue :=
  request this
    ("/docs/" +:+ encodeURIComponent docId +:+ "/tables/"
       +:+ encodeURIComponent tableIdOrName +:+ "/rows/"
       +:+ encodeURIComponent rowIdOrName)
    (withMethod "DELETE").

Definition deleteRows (docId tableIdOrName : string) (rowIds : list string) : M JSValue :=
  request this
    ("/docs/" +:+ encodeURIComponent docId +:+ "/tables/"
       +:+ encodeURIComponent tableIdOrName +:+ "/rows")
    (withBody "DELETE" (JObj [("rowIds", JArr (List.map JStr rowIds))])).

Definition pushButton (docId tableIdOrName rowIdOrName columnIdOrName : string)
  : M JSValue :=
  request this
    ("/docs/" +:+ encodeURIComponent docId +:+ "/tables/"
       +:+ encodeURIComponent tableIdOrName +:+ "/rows/"
       +:+ encodeURIComponent rowIdOrName +:+ "/buttons/"
       +:+ encodeURIComponent columnIdOrName)
    (withMethod "POST").

(* Formulas *)

Definition listFormulas (docId : string) (params : option (list (string * JSValue)))
  : M PaginatedResponse :=
  let queryString := buildQueryString (orEmpty params) in
  let* response :=
    request this ("/docs/" +:+ encodeURIComponent docId +:+ "/formulas" +:+ queryString)
      noOptions in
  paginated response.

Definition getFormula (docId formulaIdOrName : string) : M JSValue :=
  request this
    ("/docs/" +:+ encodeURIComponent docId +:+ "/formulas/"
       +:+ encodeURIComponent formulaIdOrName)
    noOptions.

(* Controls *)

Definition listControls (docId : string) (params : option (list (string * JSValue)))
  : M PaginatedResponse :=
  let queryString := buildQueryString (orEmpty params) in
  let* response :=
    request this ("/docs/" +:+ encodeURIComponent docId +:+ "/controls" +:+ queryString)
      noOptions in
  paginated response.

Definition getControl (docId controlIdOrName : string) : M JSValue :=
  request this
    ("/docs/" +:+ encodeURIComponent docId +:+ "/controls/"
       +:+ encodeURIComponent controlIdOrName)
    noOptions.

(* Automations *)

Definition listAutomations (docId : string) (params : option (list (string * JSValue)))
  : M PaginatedResponse :=
  let queryString := buildQueryString (orEmpty params) in
  let* response :=
    request this
      ("/docs/" +:+ encodeURIComponent docId +:+ "/hooks/automation/rules" +:+ queryString)
      noOptions in
  paginated response.

(** [payload] is [JUndefined] when the argument is omitted. *)
Definition triggerAutomation (docId ruleId : string) (payload : JSValue) : M JSValue :=
  request this
    ("/docs/" +:+ encodeURIComponent docId +:+ "/hooks/automation/"
       +:+ encodeURIComponent ruleId)
    (withBody "POST" (js_or payload (JObj []))).

(* Permissions *)

Definition getAclMetadata (docId : string) : M JSValue :=
  request this ("/docs/" +:+ encodeURIComponent docId +:+ "/acl/metadata") noOptions.

Definition listPermissions (docId : string) (params : option (list (string * JSValue)))
  : M PaginatedResponse :=
  let queryString := buildQueryString (orEmpty params) in
  let* response :=
    request this
      ("/docs/" +:+ encodeURIComponent docId +:+ "/acl/permissions" +:+ queryString)
      noOptions in
  paginated response.

Definition addPermission (docId : string) (input : JSValue) : M JSValue :=
  request this ("/docs/" +:+ encodeURIComponent docId +:+ "/acl/permissions")
    (withBody "POST" input).

Definition deletePermission (docId permissionId : string) : M unit :=
  let* _ :=
    request this
      ("/docs/" +:+ encodeURIComponent docId +:+ "/acl/permissions/"
         +:+ encodeURIComponent permissionId)
      (withMethod "DELETE") in
  ret tt.

Definition getAclSettings (docId : string) : M JSValue :=
  request this ("/docs/" +:+ encodeURIComponent docId +:+ "/acl/settings") noOptions.

Definition updateAclSettings (docId : string) (settings : JSValue) : M JSValue :=
  request this ("/docs/" +:+ encodeURIComponent docId +:+ "/acl/settings")
    (withBody "PATCH" settings).

(* Publishing *)

Definition listCategories : M JSValue :=
  let* response := request this "/categories" noOptions in
  prop response "items" (fun i => ret i).

Definition publishDoc (docId : string) (input : JSValue) : M unit :=
  let* _ :=
    request this ("/docs/" +:+ encodeURIComponent docId +:+ "/publish")
      (withBody "PUT" input) in
  ret tt.

Definition unpublishDoc (docId : string) : M unit :=
  let* _ :=
    request this ("/docs/" +:+ encodeURIComponent docId +:+ "/publish")
      (withMethod "DELETE") in
  ret tt.

(* Utilities *)

Definition resolveBrowserLink (url : string) (degradeGracefully : option bool) : M JSValue :=
  let queryString :=
    buildQueryString [("url", JStr url);
                      ("degradeGracefully", JBool (default false degradeGracefully))] in
  request this ("/resolveBrowserLink" +:+ queryString) noOptions.

Definition getMutationStatus (requestId : string) : M JSValue :=
  request this ("/mutationStatus/" +:+ encodeURIComponent requestId) noOptions.

End Operations.

(** ** The [CodaClient] interface as data

    One constructor per method of the interface, with its arguments, so that
    a property of every operation is a property of every [Operation]. *)
Definition Params : Type := option (list (string * JSValue)).

Inductive Operation : Type :=
| TestConnection
| Whoami
| ListDocs (params : Params)
| GetDoc (docId : string)
| CreateDoc (input : JSValue)
| DeleteDoc (docId : string)
| ListPages (docId : string) (params : Params)
| GetPage (docId pageIdOrName : string)
| CreatePage (docId : string) (input : JSValue)
| UpdatePage (docId pageIdOrName : string) (input : JSValue)
| ListTables (docId : string) (params : Params)
| GetTable (docId tableIdOrName : string)
| ListColumns (docId tableIdOrName : string) (params : Params)
| GetColumn (docId tableIdOrName columnIdOrName : string)
| ListRows (docId tableIdOrName : string) (params : Params)
| GetRow (docId tableIdOrName rowIdOrName : string) (useColumnNames : option bool)
| UpsertRows (docId tableIdOrName : string) (input : JSValue) (disableParsing : option bool)
| UpdateRow (docId tableIdOrName rowIdOrName : string) (input : JSValue)
    (disableParsing : option bool)
| DeleteRow (docId tableIdOrName rowIdOrName : string)
| DeleteRows (docId tableIdOrName : string) (rowIds : list string)
| PushButton (docId tableIdOrName rowIdOrName columnIdOrName : string)
| ListFormulas (docId : string) (params : Params)
| GetFormula (docId formulaIdOrName : string)
| ListControls (docId : string) (params : Params)
| GetControl (docId controlIdOrName : string)
| ListAutomations (docId : string) (params : Params)
| TriggerAutomation (docId ruleId : string) (payload : JSValue)
| GetAclMetadata (docId : string)
| ListPermissions (docId : string) (params : Params)
| AddPermission (docId : string) (input : JSValue)
| DeletePermission (docId permissionId : string)
| GetAclSettings (docId : string)
| UpdateAclSettings (docId : string) (settings : JSValue)
| ListCategories
| PublishDoc (docId : string) (input : JSValue)
| UnpublishDoc (docId : string)
| ResolveBrowserLink (url : string) (degradeGracefully : option bool)
| GetMutationStatus (requestId : string).

Inductive OpResult : Type :=
| ResValue (v : JSValue)
| ResPage (p : PaginatedResponse)
| ResVoid
| ResConnection (connected : bool) (message : string).

Definition mapM {A B} (f : A -> B) (m : M A) : M B :=
  let* a := m in ret (f a).

Definition run `{Runtime} (this : CodaClientImpl) (op : Operation) : M OpResult :=
  let value := mapM ResValue in
  let page := mapM ResPage in
  let void := mapM (fun _ : unit => ResVoid) in
  match op with
  | TestConnection => mapM (fun '(c, m) => ResConnection c m) (testConnection this)
  | Whoami => value (whoami this)
  | ListDocs params => page (listDocs this params)
  | GetDoc docId => value (getDoc this docId)
  | CreateDoc input => value (createDoc this input)
  | DeleteDoc docId => void (deleteDoc this docId)
  | ListPages docId params => page (listPages this docId params)
  | GetPage docId p => value (getPage this docId p)
  | CreatePage docId input => value (createPage this docId input)
  | UpdatePage docId p input => value (updatePage this docId p input)
  | ListTables docId params => page (listTables this docId params)
  | GetTable docId t => value (getTable this docId t)
  | ListColumns docId t params => page (listColumns this docId t params)
  | GetColumn docId t c => value (getColumn this docId t c)
  | ListRows docId t params => page (listRows this docId t params)
  | GetRow docId t r u => value (getRow this docId t r u)
  | UpsertRows docId t input d => value (upsertRows this docId t input d)
  | UpdateRow docId t r input d => value (updateRow this docId t r input d)
  | DeleteRow docId t r => value (deleteRow this docId t r)
  | DeleteRows docId t ids => value (deleteRows this docId t ids)
  | PushButton docId t r c => value (pushButton this docId t r c)
  | ListFormulas docId params => page (listFormulas this docId params)
  | GetFormula docId f => value (getFormula this docId f)
  | ListControls docId params => page (listControls this docId params)
  | GetControl docId c => value (getControl this docId c)
  | ListAutomations docId params => page (listAutomations this docId params)
  | TriggerAutomation docId ruleId payload => value (triggerAutomation this docId ruleId payload)
  | GetAclMetadata docId => value (getAclMetadata this docId)
  | ListPermissions docId params => page (listPermissions this docId params)
  | AddPermission docId input => value (addPermission this docId input)
  | DeletePermission docId p => void (deletePermission this docId p)
  | GetAclSettings docId => value (getAclSettings this docId)
  | UpdateAclSettings docId settings => value (updateAclSettings this docId settings)
  | ListCategories => value (listCategories this)
  | PublishDoc docId input => void (publishDoc this docId input)
  | UnpublishDoc docId => void (unpublishDoc this docId)
  | ResolveBrowserLink url d => value (resolveBrowserLink this url d)
  | GetMutationStatus requestId => value (getMutationStatus this requestId)
  end.

(** The nine listing operations that return a [PaginatedResponse]. *)
Definition isListing (op : Operation) : bool :=
  match op with
  | ListDocs _ | ListPages _ _ | ListTables _ _ | ListColumns _ _ _
  | ListRows _ _ _ | ListFormulas _ _ | ListControls _ _
  | ListAutomations _ _ | ListPermissions _ _ => true
  | _ => false
  end.

(** The path and the options an operation hands to [request]
    (every operation calls [request] exactly once, see [run_request]). *)
Definition flagQuery (name : string) (flag : option bool) : string :=
  if default false flag then "?" +:+ name +:+ "=true" else "".

Definition query (op : Operation) : string :=
  match op with
  | ListDocs p | ListPages _ p | ListTables _ p | ListColumns _ _ p | ListRows _ _ p
  | ListFormulas _ p | ListControls _ p | ListAutomations _ p | ListPermissions _ p =>
      buildQueryString (orEmpty p)
  | GetRow _ _ _ u => flagQuery "useColumnNames" u
  | UpsertRows _ _ _ d | UpdateRow _ _ _ _ d => flagQuery "disableParsing" d
  | ResolveBrowserLink url d =>
      buildQueryString [("url", JStr url); ("degradeGracefully", JBool (default false d))]
  | _ => ""
  end.

(** A path as the template literal writes it: fixed segments and
    interpolated identifiers, separated by [/]. *)
Inductive Segment : Type :=
| Lit (s : string)
| Ident (id : string).

Definition render (s : Segment) : string :=
  match s with
  | Lit s => s
  | Ident id => encodeURIComponent id
  end.

Definition template (op : Operation) : list Segment :=
  let docs d rest := Lit "" :: Lit "docs" :: Ident d :: rest in
  match op with
  | TestConnection | Whoami => [Lit ""; Lit "whoami"]
  | ListDocs _ | CreateDoc _ => [Lit ""; Lit "docs"]
  | GetDoc d | DeleteDoc d => docs d []
  | ListPages d _ | CreatePage d _ => docs d [Lit "pages"]
  | GetPage d p | UpdatePage d p _ => docs d [Lit "pages"; Ident p]
  | ListTables d _ => docs d [Lit "tables"]
  | GetTable d t => docs d [Lit "tables"; Ident t]
  | ListColumns d t _ => docs d [Lit "tables"; Ident t; Lit "columns"]
  | GetColumn d t c => docs d [Lit "tables"; Ident t; Lit "columns"; Ident c]
  | ListRows d t _ | UpsertRows d t _ _ | DeleteRows d t _ =>
      docs d [Lit "tables"; Ident t; Lit "rows"]
  | GetRow d t r _ | UpdateRow d t r _ _ | DeleteRow d t r =>
      docs d [Lit "tables"; Ident t; Lit "rows"; Ident r]
  | PushButton d t r c =>
      docs d [Lit "tables"; Ident t; Lit "rows"; Ident r; Lit "buttons"; Ident c]
  | ListFormulas d _ => docs d [Lit "formulas"]
  | GetFormula d f => docs d [Lit "formulas"; Ident f]
  | ListControls d _ => docs d [Lit "controls"]
  | GetControl d c => docs d [Lit "controls"; Ident c]
  | ListAutomations d _ => docs d [Lit "hooks"; Lit "automation"; Lit "rules"]
  | TriggerAutomation d r _ => docs d [Lit "hooks"; Lit "automation"; Ident r]
  | GetAclMetadata d => docs d [Lit "acl"; Lit "metadata"]
  | ListPermissions d _ | AddPermission d _ => docs d [Lit "acl"; Lit "permissions"]
  | DeletePermission d p => docs d [Lit "acl"; Lit "permissions"; Ident p]
  | GetAclSettings d | UpdateAclSettings d _ => docs d [Lit "acl"; Lit "settings"]
  | ListCategories => [Lit ""; Lit "categories"]
  | PublishDoc d _ | UnpublishDoc d => docs d [Lit "publish"]
  | ResolveBrowserLink _ _ => [Lit ""; Lit "resolveBrowserLink"]
  | GetMutationStatus r => [Lit ""; Lit "mutationStatus"; Ident r]
  end.

Definition endpoint (op : Operation) : string :=
  joinWith "/" (List.map render (template op)) +:+ query op.

Definition options (op : Operation) : RequestInit :=
  match op with
  | CreateDoc input | CreatePage _ input | UpsertRows _ _ input _
  | AddPermission _ input => withBody "POST" input
  | UpdatePage _ _ input | PublishDoc _ input => withBody "PUT" input
  | UpdateRow _ _ _ input _ => withBody "PUT" (JObj [("row", input)])
  | DeleteRows _ _ rowIds => withBody "DELETE" (JObj [("rowIds", JArr (List.map JStr rowIds))])
  | TriggerAutomation _ _ payload => withBody "POST" (js_or payload (JObj []))
  | UpdateAclSettings _ settings => withBody "PATCH" settings
  | DeleteDoc _ | DeleteRow _ _ _ | DeletePermission _ _ | UnpublishDoc _ => withMethod "DELETE"
  | PushButton _ _ _ _ => withMethod "POST"
  | _ => noOptions
  end.

(** The identifiers interpolated into the path of an operation, in order. *)
Definition pathIdentifiers (op : Operation) : list string :=
  flat_map (fun s => match s with Ident id => [id] | Lit _ => [] end) (template op).

(** The segments of a path: the part before the first [?], cut at each [/]. *)
Fixpoint pathSegments (s : string) : list string :=
  match s with
  | EmptyString => [""]
  | String c r =>
      if Ascii.eqb c "?" then [""]
      else if Ascii.eqb c "/" then "" :: pathSegments r
      else match pathSegments r with
           | h :: t => String c h :: t
           | [] => [String c ""]
           end
  end.

Fixpoint occurs (c : ascii) (s : string) : bool :=
  match s with
  | EmptyString => false
  | String c' r => Ascii.eqb c c' || occurs c r
  end.

(** The method of the interface an [Operation] calls. *)
Definition opName (op : Operation) : string :=
  match op with
  | TestConnection => "testConnection" | Whoami => "whoami"
  | ListDocs _ => "listDocs" | GetDoc _ => "getDoc" | CreateDoc _ => "createDoc"
  | DeleteDoc _ => "deleteDoc" | ListPages _ _ => "listPages" | GetPage _ _ => "getPage"
  | CreatePage _ _ => "createPage" | UpdatePage _ _ _ => "updatePage"
  | ListTables _ _ => "listTables" | GetTable _ _ => "getTable"
  | ListColumns _ _ _ => "listColumns" | GetColumn _ _ _ => "getColumn"
  | ListRows _ _ _ => "listRows" | GetRow _ _ _ _ => "getRow"
  | UpsertRows _ _ _ _ => "upsertRows" | UpdateRow _ _ _ _ _ => "updateRow"
  | DeleteRow _ _ _ => "deleteRow" | DeleteRows _ _ _ => "deleteRows"
  | PushButton _ _ _ _ => "pushButton" | ListFormulas _ _ => "listFormulas"
  | GetFormula _ _ => "getFormula" | ListControls _ _ => "listControls"
  | GetControl _ _ => "getControl" | ListAutomations _ _ => "listAutomations"
  | TriggerAutomation _ _ _ => "triggerAutomation" | GetAclMetadata _ => "getAclMetadata"
  | ListPermissions _ _ => "listPermissions" | AddPermission _ _ => "addPermission"
  | DeletePermission _ _ => "deletePermission" | GetAclSettings _ => "getAclSettings"
  | UpdateAclSettings _ _ => "updateAclSettings" | ListCategories => "listCategories"
  | PublishDoc _ _ => "publishDoc" | UnpublishDoc _ => "unpublishDoc"
  | ResolveBrowserLink _ _ => "resolveBrowserLink"
  | GetMutationStatus _ => "getMutationStatus"
  end.

(* ===================================================================== *)
(** * The worker entry point ([src/index.ts]) *)
(* ===================================================================== *)

Definition SERVER_NAME : string := "primrose-mcp-coda".
Definition SERVER_VERSION : string := "1.0.0".

Inductive WorkerBody : Type :=
| JsonBody (v : JSValue)      (* [JSON.stringify(v)] *)
| TextBody (s : string).

Record WorkerResponse : Type := {
  w_status : Z;
  w_headers : gmap string string;
  w_body : WorkerBody;
}.

(** What the handler does with a request: answer it itself, or build a
    server around a new client and hand the request to the MCP transport. *)
Inductive HandlerResult : Type :=
| Respond (r : WorkerResponse)
| ServeMcp (client : CodaClientImpl).

Definition jsonHeaders : gmap string string :=
  {["Content-Type" := "application/json"]}.

(** [createStatelessServer]: the server and its tools are bound to one new
    client; the value kept here is that client. *)
Definition createStatelessServer (credentials : TenantCredentials) : CodaClientImpl :=
  createCodaClient credentials.

Definition toolNames : list string :=
  [ "coda_list_docs"; "coda_get_doc"; "coda_create_doc"; "coda_delete_doc";
    "coda_list_pages"; "coda_get_page"; "coda_create_page"; "coda_update_page";
    "coda_list_tables"; "coda_get_table"; "coda_list_columns"; "coda_get_column";
    "coda_list_rows"; "coda_get_row"; "coda_upsert_rows"; "coda_update_row";
    "coda_delete_row"; "coda_delete_rows"; "coda_push_button";
    "coda_list_formulas"; "coda_get_formula";
    "coda_list_controls"; "coda_get_control";
    "coda_list_automations"; "coda_trigger_automation";
    "coda_get_sharing_metadata"; "coda_list_permissions"; "coda_add_permission";
    "coda_delete_permission"; "coda_get_acl_settings"; "coda_update_acl_settings";
    "coda_list_categories"; "coda_publish_doc"; "coda_unpublish_doc";
    "coda_whoami"; "coda_resolve_browser_link"; "coda_get_mutation_status";
    "coda_test_connection" ].

Definition serverInfo : JSValue :=
  JObj [
    ("name", JStr SERVER_NAME);
    ("version", JStr SERVER_VERSION);
    ("description", JStr "Coda MCP Server - Multi-tenant API for Coda documents");
    ("endpoints", JObj [
       ("mcp", JStr "/mcp (POST) - Streamable HTTP MCP endpoint");
       ("health", JStr "/health - Health check") ]);
    ("authentication", JObj [
       ("description", JStr "Pass tenant credentials via request headers");
       ("required_headers", JObj [
          ("X-Coda-API-Key", JStr "Your Coda API token (Bearer token)") ]);
       ("optional_headers", JObj [
          ("X-Coda-Base-URL", JStr "Override the default Coda API base URL") ]) ]);
    ("tools", JArr (List.map JStr toolNames)) ].

Definition worker_fetch (request : Request) : HandlerResult :=
  (* Health check endpoint *)
  if String.eqb (req_pathname request) "/health" then
    Respond {| w_status := 200; w_headers := jsonHeaders;
               w_body := JsonBody (JObj [("status", JStr "ok");
                                         ("server", JStr SERVER_NAME)]) |}
  (* Stateless MCP with Streamable HTTP *)
  else if String.eqb (req_pathname request) "/mcp"
          && String.eqb (req_method request) "POST" then
    let credentials := parseTenantCredentials request in
    match validateCredentials credentials with
    | Throws error =>
        Respond {| w_status := 401; w_headers := jsonHeaders;
                   w_body := JsonBody (JObj [
                     ("error", JStr "Unauthorized");
                     ("message", JStr (errorMessage error));
                     ("required_headers", JArr [JStr "X-Coda-API-Key"]) ]) |}
    | Returns _ => ServeMcp (createStatelessServer credentials)
    end
  (* SSE endpoint for legacy clients *)
  else if String.eqb (req_pathname request) "/sse" then
    Respond {| w_status := 501; w_headers := ∅;
               w_body := TextBody
                 "SSE endpoint requires Durable Objects. Enable in wrangler.jsonc." |}
  (* Default response *)
  else
    Respond {| w_status := 200; w_headers := jsonHeaders;
               w_body := JsonBody serverInfo |}.

(* ===================================================================== *)
(** * Observing the effects of a computation *)
(* ===================================================================== *)

Definition fetchCalls (evs : list Event) : list FetchCall :=
  flat_map (fun e => match e with EvFetch c => [c] | _ => [] end) evs.

(** The events a computation adds to the log. *)
Definition effects {A} (m : M A) (log : list Event) : list Event :=
  drop (length log) (snd (m log)).

Definition outcome {A} (m : M A) (log : list Event) : Outcome A := fst (m log).

(** Requests of several clients, interleaved in any order: each step names
    the client that issues the next operation. The result lists every
    outbound call with the client that issued it. *)
Fixpoint interleave `{Runtime} (steps : list (CodaClientImpl * Operation))
    (log : list Event) : list (CodaClientImpl * FetchCall) :=
  match steps with
  | [] => []
  | (client, op) :: rest =>
      (List.map (pair client) (fetchCalls (effects (run client op) log))
         ++ interleave rest (snd (run client op log)))%list
  end.

Definition authorization (call : FetchCall) : option string :=
  call_headers call !! "Authorization".

(* ===================================================================== *)
(** * Notions used to state the properties *)
(* ===================================================================== *)

(** A computation that leaves the log as it found it. *)
Definition pure {A} (m : M A) : Prop := forall log, snd (m log) = log.

(** The call [request] hands to [fetch], given the headers of
    [getAuthHeaders]. *)
Definition outboundCall (this : CodaClientImpl) (endpoint : string)
    (options : RequestInit) (auth : gmap string string) : FetchCall :=
  {| call_url := this_baseUrl this +:+ endpoint;
     call_method := init_method options;
     call_body := init_body options;
     call_headers := spread auth (default ∅ (init_headers options)) |}.

(** The retry delay [request] computes from the headers of a 429 response. *)
Definition retryAfterOf (r : Response) : number :=
  match Headers_get (headers r) "Retry-After" with
  | Some h => if truthyString h then parseInt10 h else Finite 60
  | None => Finite 60
  end.

(** [hasKey credentials]: the test [if (this.credentials.apiKey)]. *)
Definition hasKey (credentials : TenantCredentials) : bool :=
  truthy (ofOptString (apiKey credentials)).

Definition noCredentialsMessage : string :=
  "No credentials provided. Include X-Coda-API-Key header.".

(** The headers [getAuthHeaders] builds for a key. *)
Definition bearerHeaders (key : string) : gmap string string :=
  <["Content-Type" := "application/json"]> {["Authorization" := "Bearer " +:+ key]}.

(** A remote API that gives the same answer to every call, and a parser
    that accepts exactly one body; used to run the client on examples. *)
Definition fixedRuntime (answer : FetchResult) (accepted : string) (value : JSValue)
  : Runtime :=
  {| upstream := fun _ _ => answer;
     JSON_parse := fun s => if String.eqb s accepted then inl value
                            else inr "Unexpected token" |}.

Definition respondsWith (st : Z) (hs : gmap string string) (b : string) : FetchResult :=
  Responds {| status := st; headers := hs; body := b |}.

(** The name/value pairs the specification asks of the query-string
    builder: nothing for an absent or null value, one pair per element of a
    sequence, one pair with the value stringified otherwise. *)
Definition queryPairs (params : list (string * JSValue)) : URLSearchParams :=
  flat_map (fun '(key, value) =>
              match value with
              | JUndefined | JNull => []
              | JArr l => List.map (fun v => (key, js_String v)) l
              | _ => [(key, js_String value)]
              end) params.

(** The query string the specification asks for: empty without pairs,
    otherwise [?] and the pairs as [key=value] joined by [&]. *)
Definition buildQueryString_spec (params : list (string * JSValue)) : string :=
  match queryPairs params with
  | [] => ""
  | pairs => "?" +:+ usp_toString pairs
  end.

(** The answer of the worker to a request without credentials. *)
Definition unauthorizedResponse : WorkerResponse :=
  {| w_status := 401;
     w_headers := jsonHeaders;
     w_body := JsonBody (JObj [
       ("error", JStr "Unauthorized");
       ("message", JStr "Missing credentials. Provide X-Coda-API-Key header.");
       ("required_headers", JArr [JStr "X-Coda-API-Key"]) ]) |}.

(** The request with one header removed. *)
Definition dropHeader (name : string) (request : Request) : Request :=
  {| req_method := req_method request;
     req_pathname := req_pathname request;
     req_headers := delete (lowercase name) (req_headers request) |}.

(** A segment that holds neither [/] nor [?]. *)
Definition segmentSafe (s : string) : bool :=
  negb (occurs "/" s) && negb (occurs "?" s).

(** A query string: empty, or starting with [?]. *)
Definition queryLike (q : string) : bool :=
  match q with
  | EmptyString => true
  | String c _ => Ascii.eqb c "?"
  end.

(** The fixed words of a template are safe segments. *)
Definition segmentOK (s : Segment) : bool :=
  match s with
  | Lit s => segmentSafe s
  | Ident _ => true
  end.

(** The calls of a schedule depend on nothing but the client and the
    operation of each step. *)
Definition callsOf (steps : list (CodaClientImpl * Operation))
  : list (CodaClientImpl * FetchCall) :=
  flat_map (fun '(client, op) =>
              match getAuthHeaders client with
              | Returns auth => [(client, outboundCall client (endpoint op) (options op) auth)]
              | Throws _ => []
              end) steps.

(** One turn of the loop of [buildQueryString]. *)
Definition queryStep (query : URLSearchParams) (entry : string * JSValue) : URLSearchParams :=
  let '(key, value) := entry in
  match value with
  | JUndefined | JNull => query
  | JArr l => fold_left (fun q v => usp_append q key (js_String v)) l query
  | _ => usp_set query key (js_String value)
  end.

(** The error [validateCredentials] throws. *)
Definition missingCredentials : JSError :=
  PlainError "Error" "Missing credentials. Provide X-Coda-API-Key header.".

(* ===================================================================== *)
(** * Further notions: what an operation makes of the result of [request] *)
(* ===================================================================== *)


(** The default text of a [CodaApiError], [`API error: ${response.status}`]. *)
Definition apiErrorText (st : Z) : JSValue :=
  JStr ("API error: " +:+ numberToString (Finite st)).

(** The operations that hand the result of [request] back as it is. *)
Definition isValueOp (op : Operation) : bool :=
  match op with
  | Whoami | GetDoc _ | CreateDoc _ | GetPage _ _ | CreatePage _ _ | UpdatePage _ _ _
  | GetTable _ _ | GetColumn _ _ _ | GetRow _ _ _ _ | UpsertRows _ _ _ _
  | UpdateRow _ _ _ _ _ | DeleteRow _ _ _ | DeleteRows _ _ _ | PushButton _ _ _ _
  | GetFormula _ _ | GetControl _ _ | TriggerAutomation _ _ _ | GetAclMetadata _
  | AddPermission _ _ | GetAclSettings _ | UpdateAclSettings _ _
  | ResolveBrowserLink _ _ | GetMutationStatus _ => true
  | _ => false
  end.

(** The operations declared [Promise<void>]: they await [request] and drop
    its result. *)
Definition isVoidOp (op : Operation) : bool :=
  match op with
  | DeleteDoc _ | DeletePermission _ _ | PublishDoc _ _ | UnpublishDoc _ => true
  | _ => false
  end.

(** The operations that read [response.items]. *)
Definition readsItems (op : Operation) : bool :=
  isListing op || match op with ListCategories => true | _ => false end.

Definition isNullish (v : JSValue) : bool :=
  match v with
  | JUndefined | JNull => true
  | _ => false
  end.

(** What an operation other than [testConnection] makes of the value
    [request] returned (see [run_after_request]). *)
Definition finish (op : Operation) (v : JSValue) : Outcome OpResult :=
  if isValueOp op then Returns (ResValue v)
  else if isVoidOp op then Returns ResVoid
  else if isListing op then
    match fst (paginated v []) with
    | Returns page => Returns (ResPage page)
    | Throws e => Throws e
    end
  else
    match getProp v "items" with
    | Some i => Returns (ResValue i)
    | None => Throws (propertyTypeError v "items")
    end.


Fixpoint countChar (c : ascii) (s : string) : nat :=
  match s with
  | EmptyString => O
  | String c' r => ((if Ascii.eqb c c' then 1 else 0) + countChar c r)%nat
  end.

Fixpoint allChars (P : ascii -> bool) (s : string) : bool :=
  match s with
  | EmptyString => true
  | String c r => P c && allChars P r
  end.


(** The characters the form serializer lets through as they are. *)
Definition formSafe (c : ascii) : bool :=
  isAlnum c || charIn c ["*"; "-"; "."; "_"]%char.


(** The values [buildQueryString] skips: [undefined], [null], and a
    sequence without elements. *)
Definition isDropped (v : JSValue) : bool :=
  match v with
  | JUndefined | JNull | JArr [] => true
  | _ => false
  end.

(* ===================================================================== *)
(** * Environment configuration ([src/types/env.ts], second half) *)
(* ===================================================================== *)

(** The [Env] of the worker. The three variables are declared as strings
    but are absent ([JUndefined]) when the deployment does not set them; the
    three bindings are objects or absent. *)
Record Env : Type := {
  CHARACTER_LIMIT : JSValue;
  DEFAULT_PAGE_SIZE : JSValue;
  MAX_PAGE_SIZE : JSValue;
  CACHE_KV : JSValue;
  MCP_SESSIONS : JSValue;
  AI : JSValue;
}.

(** [keyof Env]. *)
Inductive EnvKey : Type :=
| KEY_CHARACTER_LIMIT
| KEY_DEFAULT_PAGE_SIZE
| KEY_MAX_PAGE_SIZE
| KEY_CACHE_KV
| KEY_MCP_SESSIONS
| KEY_AI.

(** [env[key]]. *)
Definition env_get (env : Env) (key : EnvKey) : JSValue :=
  match key with
  | KEY_CHARACTER_LIMIT => CHARACTER_LIMIT env
  | KEY_DEFAULT_PAGE_SIZE => DEFAULT_PAGE_SIZE env
  | KEY_MAX_PAGE_SIZE => MAX_PAGE_SIZE env
  | KEY_CACHE_KV => CACHE_KV env
  | KEY_MCP_SESSIONS => MCP_SESSIONS env
  | KEY_AI => AI env
  end.

(** [Number.isNaN]. *)
Definition Number_isNaN (n : number) : bool :=
  match n with
  | NaN => true
  | Finite _ => false
  end.

Definition getEnvNumber (env : Env) (key : EnvKey) (defaultValue : number) : number :=
  match env_get env key with
  | JStr value =>
      let parsed := parseInt10 value in
      if Number_isNaN parsed then defaultValue else parsed
  | _ => defaultValue
  end.

Definition getCharacterLimit (env : Env) : number :=
  getEnvNumber env KEY_CHARACTER_LIMIT (Finite 50000).

Definition getDefaultPageSize (env : Env) : number :=
  getEnvNumber env KEY_DEFAULT_PAGE_SIZE (Finite 20).

Definition getMaxPageSize (env : Env) : number :=
  getEnvNumber env KEY_MAX_PAGE_SIZE (Finite 100).

(* ===================================================================== *)
(** * The connection-test tool ([src/index.ts], [createStatelessServer]) *)
(* ===================================================================== *)

(** The text of a tool answer: [JSON.stringify(v, null, 2)] of a value, or
    a plain string. *)
Inductive ToolText : Type :=
| JsonText (v : JSValue)
| PlainText (s : string).

(** [{ content: [{ type: 'text', text }], isError? }]. *)
Record ToolResponse : Type := {
  content : ToolText;
  isError : option bool;
}.

(** The handler of [coda_test_connection]. *)
Definition coda_test_connection `{Runtime} (client : CodaClientImpl) : M ToolResponse :=
  tryCatch
    (let* result := testConnection client in
     ret {| content := JsonText (JObj [("connected", JBool (fst result));
                                       ("message", JStr (snd result))]);
            isError := None |})
    (fun error =>
       ret {| content := PlainText ("Connection failed: " +:+ errorMessage error);
              isError := Some true |}).

(** The answer of the health check. *)
Definition healthResponse : WorkerResponse :=
  {| w_status := 200; w_headers := jsonHeaders;
     w_body := JsonBody (JObj [("status", JStr "ok"); ("server", JStr SERVER_NAME)]) |}.

(** The base URL a request asks for: its [X-Coda-Base-URL] header when that
    is present and not empty, else the default. *)
Definition requestedBaseUrl (request : Request) : string :=
  match Headers_get (req_headers request) "X-Coda-Base-URL" with
  | Some url => if String.eqb url "" then API_BASE_URL else url
  | None => API_BASE_URL
  end.

(* ********************************************************************* *)
(** * Properties *)
(* ********************************************************************* *)

(* ===================================================================== *)
(** * Strings: appending, occurrences, segments *)
(* ===================================================================== *)

#[local] Arguments String.append : simpl nomatch.

Lemma append_assoc (a b c : string) : (a +:+ b) +:+ c = a +:+ (b +:+ c).
Proof. induction a as [|x a IH]; simpl; [reflexivity | now rewrite IH]. Qed.

Lemma append_empty_r (a : string) : a +:+ "" = a.
Proof. induction a as [|x a IH]; simpl; [reflexivity | now rewrite IH]. Qed.

Lemma occurs_append c (a b : string) : occurs c (a +:+ b) = occurs c a || occurs c b.
Proof.
  induction a as [|x a IH]; simpl; [reflexivity|].
  rewrite IH. now rewrite orb_assoc.
Qed.

Lemma encodeURIComponent_append (a b : string) :
  encodeURIComponent (a +:+ b) = encodeURIComponent a +:+ encodeURIComponent b.
Proof.
  induction a as [|x a IH]; simpl; [reflexivity|].
  now rewrite IH, append_assoc.
Qed.

Lemma hexDigit_unreserved (c : ascii) :
  uriUnreserved (hexDigit (code c / 16)) = true
  /\ uriUnreserved (hexDigit (code c mod 16)) = true.
Proof.
  destruct c as [[] [] [] [] [] [] [] []]; split; vm_compute; reflexivity.
Qed.

Lemma eqb_unreserved_false (c x : ascii) :
  uriUnreserved c = false -> uriUnreserved x = true -> Ascii.eqb c x = false.
Proof.
  intros Hc Hx. destruct (Ascii.eqb_spec c x) as [->|]; [congruence | reflexivity].
Qed.

(** A character outside the unreserved set, other than [%], never occurs in
    the output of [encodeURIComponent]. *)
Lemma occurs_encodeURIComponent (c : ascii) (s : string) :
  uriUnreserved c = false -> c <> "%"%char -> occurs c (encodeURIComponent s) = false.
Proof.
  intros Hc Hp. induction s as [|x s IH]; simpl; [reflexivity|].
  rewrite occurs_append, IH, orb_false_r.
  destruct (uriUnreserved x) eqn:Hx; simpl.
  - now rewrite (eqb_unreserved_false c x), orb_false_r.
  - destruct (hexDigit_unreserved x) as [Hh Hl].
    rewrite (eqb_unreserved_false c _ Hc Hh), (eqb_unreserved_false c _ Hc Hl).
    destruct (Ascii.eqb_spec c "%"); [contradiction | reflexivity].
Qed.

Lemma pathSegments_query (q : string) : queryLike q = true -> pathSegments q = [""].
Proof.
  destruct q as [|c q]; simpl; [reflexivity|].
  intros ->. reflexivity.
Qed.

Lemma pathSegments_nonempty (s : string) : pathSegments s <> [].
Proof.
  destruct s as [|c s]; simpl; [discriminate|].
  destruct (Ascii.eqb c "?"); [discriminate|].
  destruct (Ascii.eqb c "/"); [discriminate|].
  destruct (pathSegments s); discriminate.
Qed.

Lemma pathSegments_safe_append (s r : string) :
  segmentSafe s = true ->
  pathSegments (s +:+ r) =
    match pathSegments r with
    | h :: t => (s +:+ h) :: t
    | [] => [s]
    end.
Proof.
  unfold segmentSafe. induction s as [|x s IH]; cbn [occurs pathSegments String.append].
  - intros _. pose proof (pathSegments_nonempty r) as Hne.
    destruct (pathSegments r); [contradiction | reflexivity].
  - rewrite (Ascii.eqb_sym "/" x), (Ascii.eqb_sym "?" x).
    destruct (Ascii.eqb x "/"); [simpl; discriminate|].
    destruct (Ascii.eqb x "?"); [simpl; rewrite andb_false_r; discriminate|].
    cbn [orb]. intros Hs. rewrite (IH Hs).
    destruct (pathSegments r); reflexivity.
Qed.

Lemma pathSegments_join (segs : list string) (q : string) :
  segs <> [] -> forallb segmentSafe segs = true -> queryLike q = true ->
  pathSegments (joinWith "/" segs +:+ q) = segs.
Proof.
  intros Hne Hs Hq. induction segs as [|x segs IH]; [contradiction|].
  simpl in Hs. apply andb_true_iff in Hs as [Hx Hs].
  destruct segs as [|y segs].
  - simpl. rewrite (pathSegments_safe_append _ _ Hx), (pathSegments_query _ Hq).
    now rewrite append_empty_r.
  - change (joinWith "/" (x :: y :: segs)) with (x +:+ "/" +:+ joinWith "/" (y :: segs)).
    rewrite append_assoc, (pathSegments_safe_append _ _ Hx).
    replace (("/" +:+ joinWith "/" (y :: segs)) +:+ q)
      with (String "/" (joinWith "/" (y :: segs) +:+ q)) by reflexivity.
    cbn [pathSegments]. replace (Ascii.eqb "/" "?") with false by reflexivity.
    replace (Ascii.eqb "/" "/") with true by reflexivity.
    rewrite IH by (assumption || discriminate).
    now rewrite append_empty_r.
Qed.

(* ===================================================================== *)
(** * The monad: which computations touch the log *)
(* ===================================================================== *)

Lemma pure_ret {A} (a : A) : pure (ret a).
Proof. intros log. reflexivity. Qed.

Lemma pure_throw {A} (e : JSError) : pure (@throw A e).
Proof. intros log. reflexivity. Qed.

Lemma pure_prop {A} v k (cont : JSValue -> M A) :
  (forall x, pure (cont x)) -> pure (prop v k cont).
Proof.
  intros Hc. unfold prop. destruct (getProp v k); [apply Hc | apply pure_throw].
Qed.

Lemma pure_paginated response : pure (paginated response).
Proof.
  unfold paginated. repeat (apply pure_prop; intros ?). apply pure_ret.
Qed.

Lemma snd_bind {A B} (m : M A) (k : A -> M B) log :
  (forall a, pure (k a)) -> snd (bind m k log) = snd (m log).
Proof.
  intros Hk. unfold bind. destruct (m log) as [[a|e] log']; [apply Hk | reflexivity].
Qed.

Lemma snd_tryCatch {A} (m : M A) (h : JSError -> M A) log :
  (forall e, pure (h e)) -> snd (tryCatch m h log) = snd (m log).
Proof.
  intros Hh. unfold tryCatch. destruct (m log) as [[a|e] log']; [reflexivity | apply Hh].
Qed.

Lemma snd_mapM {A B} (f : A -> B) (m : M A) log : snd (mapM f m log) = snd (m log).
Proof. apply snd_bind. intros a. apply pure_ret. Qed.

(* ===================================================================== *)
(** * Every operation is one call of [request] *)
(* ===================================================================== *)

Lemma queryLike_buildQueryString params : queryLike (buildQueryString params) = true.
Proof.
  unfold buildQueryString. destruct (truthyString _); reflexivity.
Qed.

Lemma queryLike_query op : queryLike (query op) = true.
Proof.
  destruct op; simpl; try reflexivity; try apply queryLike_buildQueryString;
    unfold flagQuery;
    match goal with |- context [default false ?o] => destruct o as [[|]|] end; reflexivity.
Qed.

Ltac unfold_operations :=
  unfold testConnection, whoami, listDocs, getDoc, createDoc, deleteDoc, listPages,
    getPage, createPage, updatePage, listTables, getTable, listColumns, getColumn,
    listRows, getRow, upsertRows, updateRow, deleteRow, deleteRows, pushButton,
    listFormulas, getFormula, listControls, getControl, listAutomations,
    triggerAutomation, getAclMetadata, listPermissions, addPermission,
    deletePermission, getAclSettings, updateAclSettings, listCategories, publishDoc,
    unpublishDoc, resolveBrowserLink, getMutationStatus.

(** Both sides of an equation between paths, brought to the same shape. *)
Ltac normalize_path :=
  unfold endpoint, query, flagQuery;
  repeat (progress cbn [template List.map render joinWith String.append]
          || rewrite append_assoc || rewrite append_empty_r);
  try reflexivity.

Section RunRequest.
Context `{Runtime}.
Variable this : CodaClientImpl.

Lemma run_request_log op log :
  snd (run this op log) = snd (request this (endpoint op) (options op) log).
Proof.
  destruct op; cbn [run options];
    unfold_operations; rewrite snd_mapM.
  all: try (rewrite snd_tryCatch by (intros; apply pure_ret)).
  all: try (rewrite snd_bind
              by (intros; first [apply pure_paginated | apply pure_ret
                                | apply pure_prop; intros; apply pure_ret])).
  all: try (f_equal; f_equal; normalize_path).
  all: try (destruct useColumnNames as [[|]|]; normalize_path).
  all: try (destruct disableParsing as [[|]|]; normalize_path).
Qed.

End RunRequest.

(* ===================================================================== *)
(** * The request executor *)
(* ===================================================================== *)

Section RequestFacts.
Context `{Runtime}.
Variable this : CodaClientImpl.
Variables (endpoint : string) (options : RequestInit).

Lemma request_no_credentials log err :
  getAuthHeaders this = Throws err ->
  request this endpoint options log = (Throws err, log).
Proof.
  intros Hauth. unfold request, bind, liftOutcome. rewrite Hauth. reflexivity.
Qed.

Lemma request_rejected log auth msg :
  getAuthHeaders this = Returns auth ->
  upstream log (outboundCall this endpoint options auth) = Rejects msg ->
  request this endpoint options log =
    (Throws (PlainError "TypeError" msg),
     record log (EvFetch (outboundCall this endpoint options auth))).
Proof.
  intros Hauth Hup. unfold request, bind, liftOutcome, fetch. rewrite Hauth.
  fold (outboundCall this endpoint options auth). rewrite Hup. reflexivity.
Qed.

(** After the call: the classification of the response, in the order of
    the source. *)
Lemma request_responds log auth r :
  getAuthHeaders this = Returns auth ->
  upstream log (outboundCall this endpoint options auth) = Responds r ->
  let log' := record log (EvFetch (outboundCall this endpoint options auth)) in
  request this endpoint options log =
    if status r =? 429 then
      (Throws (RateLimitError "Rate limit exceeded" (retryAfterOf r)), log')
    else if (status r =? 401) || (status r =? 403) then
      (Throws (AuthenticationError "Authentication failed. Check your API credentials."),
       log')
    else if negb (ok r) then
      (Throws (CodaApiError
                 (errorMessageOf (body r)
                    (JStr ("API error: " +:+ numberToString (Finite (status r)))))
                 (status r)),
       record log' EvText)
    else if status r =? 204 then (Returns JUndefined, log')
    else response_json r log'.
Proof.
  intros Hauth Hup log'. unfold request, bind, liftOutcome, fetch. rewrite Hauth.
  fold (outboundCall this endpoint options auth). rewrite Hup.
  fold log'. unfold retryAfterOf.
  destruct (status r =? 429); [reflexivity|].
  destruct ((status r =? 401) || (status r =? 403)); [reflexivity|].
  destruct (negb (ok r)); [reflexivity|].
  destruct (status r =? 202) eqn:E202.
  - apply Z.eqb_eq in E202. rewrite E202. reflexivity.
  - destruct (status r =? 204); reflexivity.
Qed.

Lemma request_log log :
  snd (request this endpoint options log) =
    match getAuthHeaders this with
    | Throws _ => log
    | Returns auth =>
        let log' := record log (EvFetch (outboundCall this endpoint options auth)) in
        match upstream log (outboundCall this endpoint options auth) with
        | Rejects _ => log'
        | Responds r =>
            if (status r =? 429) || (status r =? 401) || (status r =? 403)
               || (ok r && (status r =? 204))
            then log'
            else record log' (if ok r then EvJson else EvText)
        end
    end.
Proof.
  destruct (getAuthHeaders this) as [auth|err] eqn:Hauth.
  2: { now rewrite (request_no_credentials log err Hauth). }
  cbn zeta.
  destruct (upstream log (outboundCall this endpoint options auth)) as [r|msg] eqn:Hup.
  2: { now rewrite (request_rejected log auth msg Hauth Hup). }
  pose proof (request_responds log auth r Hauth Hup) as Hreq.
  cbn zeta in Hreq. rewrite Hreq. clear Hreq.
  destruct (status r =? 429); [reflexivity|].
  destruct (status r =? 401); [reflexivity|].
  destruct (status r =? 403); [reflexivity|]. cbn [orb].
  destruct (ok r); cbn [negb andb]; [|reflexivity].
  destruct (status r =? 204); [reflexivity|].
  unfold response_json. destruct (JSON_parse (body r)); reflexivity.
Qed.

(** [request] issues no call without credentials and exactly one with. *)
Lemma request_calls log :
  fetchCalls (effects (request this endpoint options) log) =
    match getAuthHeaders this with
    | Throws _ => []
    | Returns auth => [outboundCall this endpoint options auth]
    end.
Proof.
  unfold effects. rewrite request_log.
  destruct (getAuthHeaders this) as [auth|err].
  - cbn zeta. unfold record.
    destruct (upstream log _) as [r|msg].
    + destruct (_ || _); [|destruct (ok r)];
        rewrite <- ?(assoc_L (++)), drop_app_length; reflexivity.
    + rewrite drop_app_length. reflexivity.
  - rewrite drop_all. reflexivity.
Qed.

End RequestFacts.

Section RunFacts.
Context `{Runtime}.
Variable this : CodaClientImpl.

Lemma run_calls op log :
  fetchCalls (effects (run this op) log) =
    match getAuthHeaders this with
    | Throws _ => []
    | Returns auth => [outboundCall this (endpoint op) (options op) auth]
    end.
Proof.
  unfold effects. rewrite run_request_log. apply request_calls.
Qed.

Lemma run_listing op :
  isListing op = true ->
  run this op =
    mapM ResPage (let* response := request this (endpoint op) (options op) in
                  paginated response).
Proof.
  destruct op; try discriminate; intros _; cbn [run options];
    unfold_operations; do 3 f_equal; normalize_path.
Qed.

Lemma bind_assoc {A B C} (m : M A) (f : A -> M B) (g : B -> M C) log :
  bind (bind m f) g log = bind m (fun x => bind (f x) g) log.
Proof. unfold bind. destruct (m log) as [[a|e] log']; reflexivity. Qed.

(** Every operation but [testConnection] is [request] at [endpoint op]
    followed by a continuation that issues nothing further. *)
Lemma run_factor op :
  op <> TestConnection ->
  exists k : JSValue -> M OpResult,
    (forall v, pure (k v)) /\
    forall log, run this op log = bind (request this (endpoint op) (options op)) k log.
Proof.
  intros Hop.
  destruct op; try contradiction; cbn [run options];
    unfold_operations; unfold mapM.
  all: eexists; split; cycle 1.
  all: try (intros log; rewrite ?bind_assoc;
            match goal with
            | |- ?lhs = bind (request _ ?E _) _ _ =>
                match lhs with
                | context [request this ?p _] =>
                    replace p with E
                      by (symmetry;
                          try match goal with
                              | |- context [default false ?o] => destruct o as [[|]|]
                              end; normalize_path)
                end
            end; reflexivity).
  all: intros v; cbn beta;
    repeat first [ apply pure_ret | apply pure_paginated | apply pure_prop; intros ?
                 | intros l; unfold bind;
                   match goal with
                   | |- context [paginated ?r ?l] =>
                       pose proof (pure_paginated r l);
                       destruct (paginated r l) as [[?|?] ?]; simpl in *; subst; reflexivity
                   | |- context [prop ?r ?k ?c ?l] =>
                       unfold prop; destruct (getProp r k); reflexivity
                   end
                 | intros l; reflexivity ].
Qed.

Lemma run_throws op log log' e :
  op <> TestConnection ->
  request this (endpoint op) (options op) log = (Throws e, log') ->
  run this op log = (Throws e, log').
Proof.
  intros Hop Hreq. destruct (run_factor op Hop) as (k & _ & Hk).
  rewrite Hk. unfold bind. rewrite Hreq. reflexivity.
Qed.

Lemma run_testConnection_throws log log' e :
  request this (endpoint TestConnection) (options TestConnection) log = (Throws e, log') ->
  run this TestConnection log = (Returns (ResConnection false (errorMessage e)), log').
Proof.
  intros Hreq. cbn [run]. unfold testConnection, whoami, mapM, bind, tryCatch.
  change (request this "/whoami" noOptions log)
    with (request this (endpoint TestConnection) (options TestConnection) log).
  rewrite Hreq. reflexivity.
Qed.

End RunFacts.

(* ===================================================================== *)
(** * Path building *)
(* ===================================================================== *)

Lemma template_literals_safe op : forallb segmentOK (template op) = true.
Proof. destruct op; reflexivity. Qed.

Lemma render_safe s : segmentOK s = true -> segmentSafe (render s) = true.
Proof.
  destruct s as [s|id]; simpl; [trivial|]. intros _. unfold segmentSafe.
  now rewrite !occurs_encodeURIComponent.
Qed.

Lemma template_nonempty op : template op <> [].
Proof. destruct op; discriminate. Qed.

Lemma pathSegments_endpoint op :
  pathSegments (endpoint op) = List.map render (template op).
Proof.
  unfold endpoint. apply pathSegments_join.
  - pose proof (template_nonempty op). destruct (template op); [contradiction | discriminate].
  - pose proof (template_literals_safe op) as Hs.
    induction (template op) as [|s l IH]; [reflexivity|].
    simpl in *. apply andb_true_iff in Hs as [Hs Hl].
    now rewrite (render_safe s Hs), IH.
  - apply queryLike_query.
Qed.

Lemma template_length_by_name op op' :
  opName op' = opName op -> length (template op') = length (template op).
Proof.
  destruct op, op'; intros Hn; try reflexivity; discriminate Hn.
Qed.

Lemma identifier_is_segment op id :
  In id (pathIdentifiers op) -> In (encodeURIComponent id) (List.map render (template op)).
Proof.
  unfold pathIdentifiers. intros Hin. apply in_flat_map in Hin as (s & Hs & Hid).
  destruct s as [s|id']; simpl in Hid; [contradiction|].
  destruct Hid as [->|[]]. apply (in_map render) in Hs. exact Hs.
Qed.

(** C4. Every identifier an operation interpolates into its path is
    percent-encoded on its own and is exactly one segment of the path of the
    call that goes out: the segments of the path are the fixed words of the
    template with the encoded identifiers in between; two calls of the same
    method have the same number of segments whatever their identifiers; an
    encoded identifier contains no [/], [?] or space, and each such
    character of the identifier appears as its [%XX] escape. *)
Theorem identifiers_are_encoded_segments `{Runtime}
    (this : CodaClientImpl) (op : Operation) (log : list Event) :
  fetchCalls (effects (run this op) log) =
    match getAuthHeaders this with
    | Throws _ => []
    | Returns auth => [outboundCall this (endpoint op) (options op) auth]
    end
  /\ pathSegments (endpoint op) = List.map render (template op)
  /\ (forall op', opName op' = opName op ->
        length (pathSegments (endpoint op')) = length (pathSegments (endpoint op)))
  /\ (forall id, In id (pathIdentifiers op) ->
        In (encodeURIComponent id) (pathSegments (endpoint op)))
  /\ (forall id c, In c ["/"; "?"; " "]%char ->
        occurs c (encodeURIComponent id) = false
        /\ forall pre post, id = pre +:+ String c post ->
             encodeURIComponent id =
               encodeURIComponent pre +:+ percentEncodeByte c +:+ encodeURIComponent post).
Proof.
  split; [apply run_calls|].
  split; [apply pathSegments_endpoint|].
  split.
  { intros op' Hn. rewrite !pathSegments_endpoint, !length_map.
    now apply template_length_by_name. }
  split.
  { intros id Hin. rewrite pathSegments_endpoint. now apply identifier_is_segment. }
  intros id c Hc. split.
  - destruct Hc as [<-|[<-|[<-|[]]]]; now apply occurs_encodeURIComponent.
  - intros pre post ->. rewrite encodeURIComponent_append.
    destruct Hc as [<-|[<-|[<-|[]]]]; reflexivity.
Qed.

Lemma identifiers_are_encoded_segments_witness :
  let R := fixedRuntime (respondsWith 200 ∅ "{}") "{}" (JObj []) in
  let this := createCodaClient {| apiKey := Some "key"; baseUrl := None |} in
  let op := GetRow "doc/1" "My Table?" "row 7" (Some true) in
  List.map call_url (fetchCalls (effects (@run R this op) []))
  = ["https://coda.io/apis/v1/docs/doc%2F1/tables/My%20Table%3F/rows/row%207?useColumnNames=true"]
  /\ In (encodeURIComponent "My Table?") (pathSegments (endpoint op))
  /\ length (pathSegments (endpoint op))
     = length (pathSegments (endpoint (GetRow "d" "t" "r" None))).
Proof.
  intros R this op.
  destruct (@identifiers_are_encoded_segments R this op [])
    as (Hcalls & _ & Hcount & Hin & _).
  split; [rewrite Hcalls; reflexivity|].
  split; [apply Hin; right; left; reflexivity|].
  symmetry. apply Hcount. reflexivity.
Defined.

Example getRow_path_example :
  endpoint (GetRow "doc/1" "My Table?" "row 7" (Some true))
  = "/docs/doc%2F1/tables/My%20Table%3F/rows/row%207?useColumnNames=true"
  /\ pathSegments (endpoint (GetRow "doc/1" "My Table?" "row 7" (Some true)))
     = [""; "docs"; "doc%2F1"; "tables"; "My%20Table%3F"; "rows"; "row%207"].
Proof. split; reflexivity. Qed.

(* ===================================================================== *)
(** * Credentials of a client *)
(* ===================================================================== *)

Lemma getAuthHeaders_spec (this : CodaClientImpl) :
  getAuthHeaders this =
    if hasKey (this_credentials this)
    then Returns (bearerHeaders (default "" (apiKey (this_credentials this))))
    else Throws (AuthenticationError noCredentialsMessage).
Proof.
  unfold getAuthHeaders, hasKey, truthy, ofOptString, truthyString.
  destruct (apiKey (this_credentials this)) as [key|]; [|reflexivity].
  destruct (negb (String.eqb key "")); reflexivity.
Qed.

Lemma options_no_headers op : init_headers (options op) = None.
Proof. destruct op; reflexivity. Qed.

Lemma authorization_outboundCall this op key :
  authorization (outboundCall this (endpoint op) (options op) (bearerHeaders key))
  = Some ("Bearer " +:+ key).
Proof.
  unfold authorization, outboundCall, spread; cbn [call_headers].
  rewrite options_no_headers. cbn [default].
  rewrite (left_id_L ∅ (∪)). unfold bearerHeaders.
  rewrite lookup_insert_ne by discriminate. apply lookup_singleton_eq.
Qed.

Lemma headers_outboundCall this op auth :
  call_headers (outboundCall this (endpoint op) (options op) auth) = auth.
Proof.
  unfold outboundCall, spread; cbn [call_headers].
  rewrite options_no_headers. cbn [default]. apply (left_id_L ∅ (∪)).
Qed.

Lemma interleave_callsOf `{Runtime} steps log : interleave steps log = callsOf steps.
Proof.
  revert log. induction steps as [|[client op] steps IH]; intros log; [reflexivity|].
  cbn [interleave callsOf flat_map]. rewrite IH, run_calls.
  destruct (getAuthHeaders client); reflexivity.
Qed.

Lemma callsOf_authorization steps :
  Forall (fun '(client, call) =>
            authorization call
            = option_map (String.append "Bearer ") (apiKey (this_credentials client)))
         (callsOf steps).
Proof.
  induction steps as [|[client op] steps IH]; [constructor|].
  cbn [callsOf flat_map]. apply Forall_app. split; [|exact IH].
  rewrite getAuthHeaders_spec. unfold hasKey.
  destruct (apiKey (this_credentials client)) as [key|] eqn:Hk; cbn [ofOptString truthy].
  - destruct (negb (String.eqb key "")); constructor; [|constructor].
    rewrite Hk. apply authorization_outboundCall.
  - constructor.
Qed.

(** C1. Two clients built from different keys, issuing operations in any
    interleaving: every outbound call carries the bearer header of the key
    of the client that issued it and never that of the other client. The
    calls issued are the same whatever the remote API answers and whatever
    the log holds when a call is made, so nothing another client did, at
    any point, changes a header: a client reads its key from its own record
    and there is no other place a key is kept. *)
Theorem tenant_credentials_isolated `{Runtime}
    (K1 K2 : string) (u1 u2 : option string)
    (schedule : list (bool * Operation)) (log : list Event) :
  K1 <> K2 ->
  let A := createCodaClient {| apiKey := Some K1; baseUrl := u1 |} in
  let B := createCodaClient {| apiKey := Some K2; baseUrl := u2 |} in
  let steps := List.map (fun '(first, op) => (if first : bool then A else B, op)) schedule in
  Forall (fun '(client, call) =>
            (client = A ->
               authorization call = Some ("Bearer " +:+ K1)
               /\ authorization call <> Some ("Bearer " +:+ K2))
            /\ (client = B ->
               authorization call = Some ("Bearer " +:+ K2)
               /\ authorization call <> Some ("Bearer " +:+ K1)))
         (interleave steps log)
  /\ forall (R' : Runtime) (log' : list Event),
       @interleave R' steps log' = interleave steps log.
Proof.
  intros Hne A B steps. split.
  - rewrite interleave_callsOf.
    eapply Forall_impl; [apply callsOf_authorization|].
    intros [client call] Hauth. split; intros ->; rewrite Hauth; cbn; split;
      try reflexivity; intros [= Heq]; apply Hne; congruence.
  - intros R' log'. now rewrite !interleave_callsOf.
Qed.

Lemma tenant_credentials_isolated_witness :
  let A := createCodaClient {| apiKey := Some "key-one"; baseUrl := None |} in
  let B := createCodaClient {| apiKey := Some "key-two"; baseUrl := None |} in
  let steps := [(A, Whoami); (B, GetDoc "d/1"); (A, ListDocs None); (B, TestConnection)] in
  let R := fixedRuntime (respondsWith 200 ∅ "{}") "{}" (JObj []) in
  List.map (fun '(_, call) => authorization call) (@interleave R steps [])
    = [Some "Bearer key-one"; Some "Bearer key-two";
       Some "Bearer key-one"; Some "Bearer key-two"]
  /\ Forall (fun '(client, call) =>
            (client = A ->
               authorization call = Some "Bearer key-one"
               /\ authorization call <> Some "Bearer key-two")
            /\ (client = B ->
               authorization call = Some "Bearer key-two"
               /\ authorization call <> Some "Bearer key-one"))
         (@interleave R steps []).
Proof.
  intros A B steps R. split; [vm_compute; reflexivity|].
  apply (@tenant_credentials_isolated R "key-one" "key-two" None None
           [(true, Whoami); (false, GetDoc "d/1"); (true, ListDocs None);
            (false, TestConnection)] []).
  discriminate.
Defined.

(** C9 (as amended). A client whose credentials hold no API key (absent or
    empty) issues no outbound call: every operation other than
    [testConnection] fails with the [AuthenticationError] of the header
    builder, and [testConnection] catches that error and returns
    [connected = false] with its message. A client with a non-empty key
    builds exactly [Authorization: Bearer <apiKey>] and
    [Content-Type: application/json], and every operation sends one call
    with these headers. *)
Theorem missing_key_fails_before_fetch `{Runtime}
    (credentials : TenantCredentials) (op : Operation) (log : list Event) :
  let this := createCodaClient credentials in
  (hasKey credentials = false ->
     getAuthHeaders this = Throws (AuthenticationError noCredentialsMessage)
     /\ run this op log =
          (match op with
           | TestConnection => Returns (ResConnection false noCredentialsMessage)
           | _ => Throws (AuthenticationError noCredentialsMessage)
           end, log))
  /\ (forall key, apiKey credentials = Some key -> key <> "" ->
        getAuthHeaders this = Returns (bearerHeaders key)
        /\ exists call,
             fetchCalls (effects (run this op) log) = [call]
             /\ call_headers call = bearerHeaders key
             /\ call_url call = this_baseUrl this +:+ endpoint op).
Proof.
  intros this. split.
  - intros Hk.
    assert (Hauth : getAuthHeaders this = Throws (AuthenticationError noCredentialsMessage)).
    { rewrite getAuthHeaders_spec. subst this. cbn [createCodaClient new_CodaClientImpl
        this_credentials]. now rewrite Hk. }
    split; [exact Hauth|].
    pose proof (request_no_credentials this (endpoint op) (options op) log _ Hauth) as Hreq.
    assert (Hcase : op = TestConnection \/ op <> TestConnection)
      by (destruct op; solve [left; reflexivity | right; discriminate]).
    destruct Hcase as [->|Hop].
    + exact (run_testConnection_throws this log log _ Hreq).
    + rewrite (run_throws this op log log _ Hop Hreq). destruct op; try reflexivity.
      contradiction.
  - intros key Hkey Hne.
    assert (Hauth : getAuthHeaders this = Returns (bearerHeaders key)).
    { rewrite getAuthHeaders_spec. subst this. cbn [createCodaClient new_CodaClientImpl
        this_credentials]. unfold hasKey. rewrite Hkey. cbn [ofOptString truthy default].
      apply String.eqb_neq in Hne. now rewrite Hne. }
    split; [exact Hauth|].
    eexists. rewrite run_calls, Hauth. split; [reflexivity|].
    split; [apply headers_outboundCall | reflexivity].
Qed.

Lemma missing_key_fails_before_fetch_witness :
  let R := fixedRuntime (respondsWith 200 ∅ "{}") "{}" (JObj []) in
  (@run R (createCodaClient {| apiKey := None; baseUrl := None |}) (GetDoc "d") []
   = (Throws (AuthenticationError noCredentialsMessage), []))
  /\ (@run R (createCodaClient {| apiKey := Some ""; baseUrl := None |}) TestConnection []
      = (Returns (ResConnection false noCredentialsMessage), []))
  /\ getAuthHeaders (createCodaClient {| apiKey := Some "k1"; baseUrl := None |})
     = Returns (bearerHeaders "k1").
Proof.
  intros R.
  split; [|split].
  - apply (@missing_key_fails_before_fetch R {| apiKey := None; baseUrl := None |}
             (GetDoc "d") []). reflexivity.
  - apply (@missing_key_fails_before_fetch R {| apiKey := Some ""; baseUrl := None |}
             TestConnection []). reflexivity.
  - apply (proj2 (@missing_key_fails_before_fetch R
                    {| apiKey := Some "k1"; baseUrl := None |} Whoami []) "k1" eq_refl).
    discriminate.
Defined.

(** C9 as stated does not hold of [testConnection]: without a key it
    returns a value instead of failing. *)
Lemma testConnection_without_key_returns :
  let R := fixedRuntime (Rejects "unreachable") "" JNull in
  let this := createCodaClient {| apiKey := None; baseUrl := None |} in
  ~ (forall op : Operation,
       exists m, outcome (@run R this op) [] = Throws (AuthenticationError m)).
Proof.
  intros R this Hall. destruct (Hall TestConnection) as [m Hm].
  vm_compute in Hm. discriminate Hm.
Qed.

(* ===================================================================== *)
(** * Classification of responses *)
(* ===================================================================== *)

Lemma record_neq log e : record log e <> log.
Proof.
  unfold record. intros Heq. apply (f_equal length) in Heq.
  rewrite length_app in Heq. simpl in Heq. lia.
Qed.

(** C8. A 204 response makes [request] return [undefined] with nothing
    logged after the call itself: the body is neither read as text nor
    parsed, whatever it holds. Status 204 passes the three earlier
    classifications (it is not 429, 401 or 403, and it is a success), and
    204 is the only status for which [request] returns without reading the
    body. *)
Theorem no_content_returns_without_reading_body `{Runtime}
    (this : CodaClientImpl) (endpoint : string) (options : RequestInit)
    (log : list Event) (auth : gmap string string) (r : Response) :
  getAuthHeaders this = Returns auth ->
  upstream log (outboundCall this endpoint options auth) = Responds r ->
  let sent := record log (EvFetch (outboundCall this endpoint options auth)) in
  (status r = 204 ->
     request this endpoint options log = (Returns JUndefined, sent)
     /\ effects (request this endpoint options) log
        = [EvFetch (outboundCall this endpoint options auth)]
     /\ (status r =? 429) = false
     /\ (status r =? 401) || (status r =? 403) = false
     /\ ok r = true)
  /\ (forall v, request this endpoint options log = (Returns v, sent) -> status r = 204).
Proof.
  intros Hauth Hup sent.
  pose proof (request_responds this endpoint options log auth r Hauth Hup) as Hreq.
  cbn zeta in Hreq. fold sent in Hreq. split.
  - intros H204.
    assert (E429 : (status r =? 429) = false) by now rewrite H204.
    assert (E40x : (status r =? 401) || (status r =? 403) = false) by now rewrite H204.
    assert (Eok : ok r = true) by (unfold ok; now rewrite H204).
    assert (E204 : (status r =? 204) = true) by now rewrite H204.
    rewrite E429, E40x, Eok, E204 in Hreq. cbn [negb] in Hreq.
    split; [exact Hreq|]. split; [|repeat split; assumption].
    unfold effects. rewrite Hreq. cbn [snd]. unfold sent, record.
    now rewrite drop_app_length.
  - intros v Hv. rewrite Hv in Hreq.
    destruct (status r =? 429); [discriminate|].
    destruct ((status r =? 401) || (status r =? 403)); [discriminate|].
    destruct (negb (ok r)); [discriminate|].
    destruct (Z.eqb_spec (status r) 204) as [E|_]; [exact E|].
    exfalso. unfold response_json in Hreq.
    destruct (JSON_parse (body r)); inversion Hreq as [[Hv' Hlog]];
      symmetry in Hlog; exact (record_neq _ _ Hlog).
Qed.

Lemma no_content_returns_without_reading_body_witness :
  let R := fixedRuntime (respondsWith 204 ∅ "this body is not JSON") "{}" (JObj []) in
  let this := createCodaClient {| apiKey := Some "key"; baseUrl := None |} in
  let call := outboundCall this "/docs/d" (withMethod "DELETE") (bearerHeaders "key") in
  @request R this "/docs/d" (withMethod "DELETE") [] = (Returns JUndefined, [EvFetch call])
  /\ effects (@request R this "/docs/d" (withMethod "DELETE")) [] = [EvFetch call].
Proof.
  intros R this call.
  destruct (@no_content_returns_without_reading_body R this "/docs/d"
              (withMethod "DELETE") [] (bearerHeaders "key")
              {| status := 204; headers := ∅; body := "this body is not JSON" |}
              eq_refl eq_refl) as [H204 _].
  destruct (H204 eq_refl) as (Hreq & Heff & _).
  split; [exact Hreq | exact Heff].
Defined.

(** Status 429, and no other, makes [request] fail with a
    [RateLimitError]; the delay it carries is [retryAfterOf]: 60 without a
    [Retry-After] header or with an empty one, else [parseInt] of it. *)
Lemma rate_limit_classification `{Runtime}
    (this : CodaClientImpl) (endpoint : string) (options : RequestInit)
    (log : list Event) (auth : gmap string string) (r : Response) :
  getAuthHeaders this = Returns auth ->
  upstream log (outboundCall this endpoint options auth) = Responds r ->
  (status r = 429 ->
     outcome (request this endpoint options) log
     = Throws (RateLimitError "Rate limit exceeded" (retryAfterOf r)))
  /\ (forall m n, outcome (request this endpoint options) log
                  = Throws (RateLimitError m n) -> status r = 429).
Proof.
  intros Hauth Hup. unfold outcome.
  pose proof (request_responds this endpoint options log auth r Hauth Hup) as Hreq.
  cbn zeta in Hreq. rewrite Hreq. clear Hreq.
  split.
  - intros ->. reflexivity.
  - intros m n. destruct (Z.eqb_spec (status r) 429) as [E|_]; [trivial|].
    destruct ((status r =? 401) || (status r =? 403)); [discriminate|].
    destruct (negb (ok r)); [discriminate|].
    destruct (status r =? 204); [discriminate|].
    unfold response_json. destruct (JSON_parse (body r)); discriminate.
Qed.

Example forbidden_is_authentication_error :
  let R := fixedRuntime (respondsWith 403 ∅ "") "{}" (JObj []) in
  let this := createCodaClient {| apiKey := Some "key"; baseUrl := None |} in
  outcome (@request R this "/whoami" noOptions) []
  = Throws (AuthenticationError "Authentication failed. Check your API credentials.").
Proof. vm_compute. reflexivity. Qed.

Example upstream_error_message :
  let R := fixedRuntime (respondsWith 404 ∅ "BODY") "BODY"
             (JObj [("statusCode", JNum (Finite 404)); ("message", JStr "Not Found")]) in
  let this := createCodaClient {| apiKey := Some "key"; baseUrl := None |} in
  @request R this "/docs/x" noOptions []
  = (Throws (CodaApiError (JStr "Not Found") 404),
     [EvFetch (outboundCall this "/docs/x" noOptions (bearerHeaders "key")); EvText]).
Proof. vm_compute. reflexivity. Qed.

Example upstream_error_without_json :
  let R := fixedRuntime (respondsWith 502 ∅ "<html>Bad Gateway</html>") "{}" (JObj []) in
  let this := createCodaClient {| apiKey := Some "key"; baseUrl := None |} in
  outcome (@request R this "/docs/x" noOptions) []
  = Throws (CodaApiError (JStr "API error: 502") 502).
Proof. vm_compute. reflexivity. Qed.

Example accepted_returns_parsed_body :
  let ack := JObj [("requestId", JStr "mutate:1"); ("addedRowIds", JArr [JStr "i-1"])] in
  let R := fixedRuntime (respondsWith 202 ∅ "ACK") "ACK" ack in
  let this := createCodaClient {| apiKey := Some "key"; baseUrl := None |} in
  outcome (@run R this (UpsertRows "d" "t" (JObj [("rows", JArr [])]) None)) []
  = Returns (ResValue ack).
Proof. vm_compute. reflexivity. Qed.

Example retry_after_thirty :
  retryAfterOf {| status := 429; headers := {["retry-after" := "30"]}; body := "" |}
  = Finite 30.
Proof. vm_compute. reflexivity. Qed.

Example retry_after_absent :
  retryAfterOf {| status := 429; headers := ∅; body := "" |} = Finite 60.
Proof. vm_compute. reflexivity. Qed.

(** C5, at the input where the code departs from the specification: a 429 response whose
    [Retry-After] header is an HTTP date. [parseInt] finds no digits, and
    the [RateLimitError] carries [NaN] instead of the default 60. *)
Theorem retry_after_http_date_is_NaN :
  let R := fixedRuntime
             (respondsWith 429 {["retry-after" := "Wed, 21 Oct 2015 07:28:00 GMT"]} "")
             "{}" (JObj []) in
  let this := createCodaClient {| apiKey := Some "key"; baseUrl := None |} in
  outcome (@request R this "/whoami" noOptions) []
  = Throws (RateLimitError "Rate limit exceeded" NaN).
Proof. vm_compute. reflexivity. Qed.

(* ===================================================================== *)
(** * Listing operations *)
(* ===================================================================== *)

Lemma paginated_object fields log :
  paginated (JObj fields) log =
    (Returns {| items := default JUndefined (assocLookup "items" fields);
                nextPageToken := default JUndefined (assocLookup "nextPageToken" fields);
                nextPageLink := default JUndefined (assocLookup "nextPageLink" fields);
                hasMore := truthy (default JUndefined
                                     (assocLookup "nextPageToken" fields)) |},
     log).
Proof.
  unfold paginated, prop, getProp.
  destruct (assocLookup "items" fields), (assocLookup "nextPageToken" fields),
    (assocLookup "nextPageLink" fields); reflexivity.
Qed.

Lemma ok_status r : ok r = true -> 200 <= status r <= 299.
Proof. unfold ok. intros Hok. apply andb_true_iff in Hok as [H1 H2]. lia. Qed.

(** C2. A listing operation whose call is answered by a success with a
    JSON object as payload returns [items], [nextPageToken] and
    [nextPageLink] as the payload holds them (an absent field stays
    absent), and [hasMore] is the truthiness of [nextPageToken]: false when
    the payload has none, and for a string token true exactly when it is
    not empty. A [hasMore] field of the payload is not read. *)
Theorem listing_hasMore_iff_token `{Runtime}
    (this : CodaClientImpl) (op : Operation) (log : list Event)
    (auth : gmap string string) (r : Response) (fields : list (string * JSValue)) :
  isListing op = true ->
  getAuthHeaders this = Returns auth ->
  upstream log (outboundCall this (endpoint op) (options op) auth) = Responds r ->
  ok r = true -> status r <> 204 ->
  JSON_parse (body r) = inl (JObj fields) ->
  let token := assocLookup "nextPageToken" fields in
  exists page,
    outcome (run this op) log = Returns (ResPage page)
    /\ items page = default JUndefined (assocLookup "items" fields)
    /\ nextPageToken page = default JUndefined token
    /\ nextPageLink page = default JUndefined (assocLookup "nextPageLink" fields)
    /\ hasMore page = truthy (default JUndefined token)
    /\ (token = None -> hasMore page = false)
    /\ (forall s, token = Some (JStr s) -> (hasMore page = true <-> s <> ""))
    /\ (forall v l, paginated (JObj (("hasMore", v) :: fields)) l
                    = paginated (JObj fields) l).
Proof.
  intros Hlist Hauth Hup Hok H204 Hparse token.
  pose proof (ok_status r Hok) as Hrange.
  pose proof (request_responds this (endpoint op) (options op) log auth r Hauth Hup)
    as Hreq. cbn zeta in Hreq.
  replace (status r =? 429) with false in Hreq by (symmetry; apply Z.eqb_neq; lia).
  replace ((status r =? 401) || (status r =? 403)) with false in Hreq
    by (symmetry; apply orb_false_iff; split; apply Z.eqb_neq; lia).
  rewrite Hok in Hreq. cbn [negb] in Hreq.
  replace (status r =? 204) with false in Hreq by (symmetry; now apply Z.eqb_neq).
  unfold response_json in Hreq. rewrite Hparse in Hreq.
  eexists. split.
  { unfold outcome. rewrite (run_listing this op Hlist). unfold mapM, bind at 1 2.
    rewrite Hreq, paginated_object. reflexivity. }
  cbn [items nextPageToken nextPageLink hasMore]. fold token.
  do 4 (split; [reflexivity|]).
  split; [intros Ht; rewrite Ht; reflexivity|].
  split.
  - intros s Hs. rewrite Hs. cbn [default from_option id truthy].
    destruct (String.eqb_spec s ""); cbn [negb]; split; congruence.
  - intros v l. rewrite !paginated_object. reflexivity.
Qed.

Lemma listing_hasMore_iff_token_witness :
  let payload := [("items", JArr [JStr "a"; JStr "b"]); ("nextPageToken", JStr "t2");
                  ("hasMore", JBool false)] in
  let R := fixedRuntime (respondsWith 200 ∅ "PAGE") "PAGE" (JObj payload) in
  let this := createCodaClient {| apiKey := Some "key"; baseUrl := None |} in
  exists page,
    outcome (@run R this (ListPages "d" None)) [] = Returns (ResPage page)
    /\ items page = JArr [JStr "a"; JStr "b"]
    /\ nextPageToken page = JStr "t2"
    /\ hasMore page = true.
Proof.
  intros payload R this.
  destruct (@listing_hasMore_iff_token R this (ListPages "d" None) []
              (bearerHeaders "key")
              {| status := 200; headers := ∅; body := "PAGE" |} payload
              eq_refl eq_refl eq_refl eq_refl ltac:(discriminate) eq_refl)
    as (page & Hrun & Hitems & Htoken & _ & Hmore & _).
  exists page. rewrite Hitems, Htoken, Hmore. repeat split. exact Hrun.
Defined.

(* ===================================================================== *)
(** * The query-string builder *)
(* ===================================================================== *)

Lemma usp_set_fresh (q : URLSearchParams) k v :
  ~ In k (List.map fst q) -> usp_set q k v = (q ++ [(k, v)])%list.
Proof.
  induction q as [|[k' v'] q IH]; intros Hk; [reflexivity|].
  cbn [usp_set]. cbn [List.map fst In] in Hk.
  destruct (String.eqb_spec k' k) as [->|_]; [tauto|].
  rewrite IH by tauto. reflexivity.
Qed.

Lemma fold_usp_append (l : list JSValue) (q : URLSearchParams) k :
  fold_left (fun q v => usp_append q k (js_String v)) l q
  = (q ++ List.map (fun v => (k, js_String v)) l)%list.
Proof.
  revert q. induction l as [|x l IH]; intros q; cbn [fold_left List.map].
  - now rewrite app_nil_r.
  - rewrite IH. unfold usp_append. now rewrite <- app_assoc.
Qed.

Lemma queryStep_fresh q k v :
  ~ In k (List.map fst q) -> queryStep q (k, v) = (q ++ queryPairs [(k, v)])%list.
Proof.
  intros Hk. unfold queryPairs. cbn [flat_map]. rewrite app_nil_r.
  destruct v; cbn [queryStep]; rewrite ?app_nil_r; try reflexivity;
    try (now apply usp_set_fresh).
  apply fold_usp_append.
Qed.

Lemma queryPairs_keys k v x : In x (List.map fst (queryPairs [(k, v)])) -> x = k.
Proof.
  unfold queryPairs. cbn [flat_map]. rewrite app_nil_r.
  destruct v; cbn; try tauto; try (intros [<-|[]]; reflexivity).
  rewrite map_map. cbn [fst]. intros Hin. apply in_map_iff in Hin as (? & <- & _).
  reflexivity.
Qed.

Lemma fold_queryStep params q :
  List.NoDup (List.map fst params) ->
  (forall k, In k (List.map fst q) -> ~ In k (List.map fst params)) ->
  fold_left queryStep params q = (q ++ queryPairs params)%list.
Proof.
  revert q. induction params as [|[k v] params IH]; intros q Hnd Hq.
  - cbn. now rewrite app_nil_r.
  - cbn [fold_left]. cbn [List.map fst] in Hnd, Hq.
    apply List.NoDup_cons_iff in Hnd as [Hk Hnd].
    rewrite queryStep_fresh by (intros Hin; apply (Hq k Hin); now left).
    rewrite IH; [| exact Hnd |].
    + rewrite <- app_assoc. f_equal. unfold queryPairs. cbn [flat_map].
      now rewrite app_nil_r.
    + intros x Hx Hin. rewrite List.map_app in Hx. apply in_app_or in Hx as [Hx|Hx].
      * apply (Hq x Hx). now right.
      * apply queryPairs_keys in Hx. subst x. contradiction.
Qed.

Lemma append_not_empty (a b : string) : b <> "" -> a +:+ b <> "".
Proof. destruct a; cbn [String.append]; [trivial | discriminate]. Qed.

Lemma usp_toString_truthy (q : URLSearchParams) :
  truthyString (usp_toString q) = match q with [] => false | _ => true end.
Proof.
  destruct q as [|[k v] q]; [reflexivity|].
  unfold truthyString, usp_toString. apply negb_true_iff, String.eqb_neq.
  cbn [List.map joinWith].
  destruct (List.map _ q); apply append_not_empty; cbn [String.append]; discriminate.
Qed.

(** C3. On the entries of an object (no key twice), the query-string
    builder yields what the specification describes: an absent or null
    value gives no pair, a sequence gives one [key=value] pair per element,
    any other value gives one pair with the value stringified; the result
    is empty when there is no pair and otherwise starts with [?]. *)
Theorem buildQueryString_refines_spec (params : list (string * JSValue)) :
  List.NoDup (List.map fst params) ->
  buildQueryString params = buildQueryString_spec params
  /\ (queryPairs params = [] -> buildQueryString params = "")
  /\ (queryPairs params <> [] ->
        buildQueryString params = String "?" (usp_toString (queryPairs params))).
Proof.
  intros Hnd.
  assert (Hfold : buildQueryString params
                  = if truthyString (usp_toString (queryPairs params))
                    then "?" +:+ usp_toString (queryPairs params) else "").
  { unfold buildQueryString. change (fold_left _ params []) with (fold_left queryStep params []).
    rewrite fold_queryStep by (assumption || (intros k [])). reflexivity. }
  rewrite Hfold, usp_toString_truthy. unfold buildQueryString_spec.
  destruct (queryPairs params); repeat split; try reflexivity; congruence.
Qed.

Ltac nodup_keys :=
  cbn [List.map fst];
  repeat (constructor; [cbn [In]; intuition discriminate|]); constructor.

Lemma buildQueryString_refines_spec_witness :
  buildQueryString [("tags", JArr [JStr "a"; JStr "b"]); ("pageToken", JUndefined);
                    ("query", JNull); ("limit", JNum (Finite 20));
                    ("visibleOnly", JBool true); ("sortBy", JStr "created at")]
  = "?tags=a&tags=b&limit=20&visibleOnly=true&sortBy=created+at"
  /\ buildQueryString [("pageToken", JUndefined); ("tableTypes", JArr [])] = "".
Proof.
  split.
  - rewrite (proj1 (buildQueryString_refines_spec
               [("tags", JArr [JStr "a"; JStr "b"]); ("pageToken", JUndefined);
                ("query", JNull); ("limit", JNum (Finite 20));
                ("visibleOnly", JBool true); ("sortBy", JStr "created at")]
               ltac:(nodup_keys))).
    reflexivity.
  - apply (proj1 (proj2 (buildQueryString_refines_spec
             [("pageToken", JUndefined); ("tableTypes", JArr [])]
             ltac:(nodup_keys)))).
    reflexivity.
Defined.

(* ===================================================================== *)
(** * The credential resolver and the inbound boundary *)
(* ===================================================================== *)

Lemma validateCredentials_spec (credentials : TenantCredentials) :
  validateCredentials credentials =
    if hasKey credentials then Returns tt else Throws missingCredentials.
Proof.
  unfold validateCredentials, hasKey. destruct (truthy _); reflexivity.
Qed.

Lemma orUndefined_not_empty (o : option string) : orUndefined o <> Some "".
Proof.
  destruct o as [s|]; cbn [orUndefined]; [|discriminate].
  unfold truthyString. destruct (String.eqb_spec s ""); cbn [negb]; congruence.
Qed.

Lemma hasKey_resolved (request : Request) :
  hasKey (parseTenantCredentials request) = false
  <-> apiKey (parseTenantCredentials request) = None.
Proof.
  unfold hasKey.
  pose proof (orUndefined_not_empty (Headers_get (req_headers request) "X-Coda-API-Key")) as Hne.
  cbn [parseTenantCredentials apiKey] in *.
  destruct (orUndefined _) as [s|]; cbn [ofOptString truthy]; [|tauto].
  destruct (String.eqb_spec s ""); cbn [negb]; split; congruence.
Qed.

(** C6 (as amended). [validateCredentials] throws exactly when the
    credentials hold no API key (absent, or empty when built by hand), and
    returns without effect otherwise; on credentials resolved from a
    request that is exactly when [apiKey] is absent. What it throws is a
    plain [Error] with a fixed message, not an [AuthenticationError]. *)
Theorem validate_throws_plain_error (credentials : TenantCredentials) :
  validateCredentials credentials =
    match apiKey credentials with
    | None => Throws missingCredentials
    | Some key => if String.eqb key "" then Throws missingCredentials else Returns tt
    end
  /\ errorKind missingCredentials = KindError
  /\ forall request : Request,
       let resolved := parseTenantCredentials request in
       (apiKey resolved = None -> validateCredentials resolved = Throws missingCredentials)
       /\ (apiKey resolved <> None -> validateCredentials resolved = Returns tt).
Proof.
  split; [|split; [reflexivity|]].
  - rewrite validateCredentials_spec. unfold hasKey.
    destruct (apiKey credentials) as [key|]; cbn [ofOptString truthy]; [|reflexivity].
    destruct (String.eqb key ""); reflexivity.
  - intros request resolved. rewrite validateCredentials_spec.
    pose proof (hasKey_resolved request) as Hk. fold resolved in Hk.
    destruct (hasKey resolved); split; intros Hn; try reflexivity.
    + destruct Hk as [_ Hk]. specialize (Hk Hn). discriminate.
    + destruct Hk as [Hk _]. specialize (Hk eq_refl). contradiction.
Qed.

(** C6 as stated fails: without an API key the error thrown is not of the
    [AuthenticationError] kind. *)
Lemma validate_not_authentication_error :
  ~ exists e, validateCredentials {| apiKey := None; baseUrl := None |} = Throws e
              /\ errorKind e = KindAuthentication.
Proof. intros (e & He & Hkind). inversion He; subst e. discriminate Hkind. Qed.

Lemma worker_fetch_mcp (request : Request) :
  req_pathname request = "/mcp" -> req_method request = "POST" ->
  worker_fetch request =
    if hasKey (parseTenantCredentials request)
    then ServeMcp (createCodaClient (parseTenantCredentials request))
    else Respond unauthorizedResponse.
Proof.
  intros Hp Hm. unfold worker_fetch. rewrite Hp, Hm. cbn [String.eqb Ascii.eqb Bool.eqb andb].
  rewrite validateCredentials_spec. destruct (hasKey _); reflexivity.
Qed.

(** The client the handler builds for a request holds the key of that
    request's own [X-Coda-API-Key] header. *)
Lemma worker_client_of_own_request (request : Request) (client : CodaClientImpl) :
  worker_fetch request = ServeMcp client ->
  client = createCodaClient (parseTenantCredentials request)
  /\ exists key, key <> ""
       /\ Headers_get (req_headers request) "X-Coda-API-Key" = Some key
       /\ apiKey (this_credentials client) = Some key.
Proof.
  unfold worker_fetch.
  destruct (String.eqb (req_pathname request) "/health"); [discriminate|].
  destruct (_ && _).
  - rewrite validateCredentials_spec.
    destruct (hasKey (parseTenantCredentials request)) eqn:Hk; [|discriminate].
    intros [= <-]. split; [reflexivity|].
    unfold hasKey in Hk. cbn [parseTenantCredentials apiKey] in Hk.
    cbn [createStatelessServer createCodaClient new_CodaClientImpl this_credentials
         parseTenantCredentials apiKey].
    destruct (Headers_get (req_headers request) "X-Coda-API-Key") as [key|];
      cbn [orUndefined] in *; [|discriminate].
    unfold truthyString in *.
    destruct (String.eqb_spec key ""); cbn [negb] in *; [discriminate|].
    exists key. repeat split; assumption.
  - destruct (String.eqb (req_pathname request) "/sse"); discriminate.
Qed.

(** C7. A POST to [/mcp] without the [X-Coda-API-Key] header is answered
    with status 401 and a JSON body whose [required_headers] lists
    [X-Coda-API-Key]; the handler builds no client for it. *)
Theorem missing_api_key_header_is_401 (request : Request) :
  req_pathname request = "/mcp" -> req_method request = "POST" ->
  Headers_get (req_headers request) "X-Coda-API-Key" = None ->
  worker_fetch request = Respond unauthorizedResponse
  /\ w_status unauthorizedResponse = 401
  /\ (exists fields,
        w_body unauthorizedResponse = JsonBody (JObj fields)
        /\ assocLookup "required_headers" fields = Some (JArr [JStr "X-Coda-API-Key"]))
  /\ forall client, worker_fetch request <> ServeMcp client.
Proof.
  intros Hp Hm Hkey.
  assert (Hfetch : worker_fetch request = Respond unauthorizedResponse).
  { rewrite (worker_fetch_mcp request Hp Hm). unfold hasKey.
    cbn [parseTenantCredentials apiKey]. rewrite Hkey. reflexivity. }
  split; [exact Hfetch|]. split; [reflexivity|]. split.
  - eexists. split; reflexivity.
  - intros client. rewrite Hfetch. discriminate.
Qed.

Lemma missing_api_key_header_is_401_witness :
  worker_fetch {| req_method := "POST"; req_pathname := "/mcp";
                  req_headers := {["content-type" := "application/json"]} |}
  = Respond unauthorizedResponse.
Proof.
  apply (missing_api_key_header_is_401
           {| req_method := "POST"; req_pathname := "/mcp";
              req_headers := {["content-type" := "application/json"]} |}
           eq_refl eq_refl).
  vm_compute. reflexivity.
Defined.

Lemma new_client_baseUrl (credentials : TenantCredentials) :
  this_baseUrl (createCodaClient credentials) =
    match baseUrl credentials with
    | Some url => if String.eqb url "" then API_BASE_URL else url
    | None => API_BASE_URL
    end.
Proof.
  unfold createCodaClient, new_CodaClientImpl, truthyString; cbn [this_baseUrl].
  destruct (baseUrl credentials) as [url|]; cbn [ofOptString truthy]; [|reflexivity].
  destruct (String.eqb url ""); reflexivity.
Qed.

(** C10. An empty header value counts as an absent one: with an empty
    [X-Coda-API-Key] the resolved [apiKey] is undefined and the handler
    answers as it does to the request without that header (401 on a POST to
    [/mcp]); with an empty [X-Coda-Base-URL], or an empty [baseUrl] handed to
    the constructor, the client uses the default base URL; the base URL of a
    client is never empty. *)
Theorem empty_header_values_are_absent (request : Request) :
  (Headers_get (req_headers request) "X-Coda-API-Key" = Some "" ->
     apiKey (parseTenantCredentials request) = None
     /\ worker_fetch request = worker_fetch (dropHeader "X-Coda-API-Key" request)
     /\ (req_pathname request = "/mcp" -> req_method request = "POST" ->
         worker_fetch request = Respond unauthorizedResponse))
  /\ (Headers_get (req_headers request) "X-Coda-Base-URL" = Some "" ->
        baseUrl (parseTenantCredentials request) = None
        /\ this_baseUrl (createCodaClient (parseTenantCredentials request)) = API_BASE_URL)
  /\ (forall credentials,
        baseUrl credentials = Some "" ->
        this_baseUrl (createCodaClient credentials) = API_BASE_URL)
  /\ (forall credentials, this_baseUrl (createCodaClient credentials) <> "").
Proof.
  split; [|split; [|split]].
  - intros Hkey.
    assert (Hcreds : parseTenantCredentials (dropHeader "X-Coda-API-Key" request)
                     = parseTenantCredentials request).
    { unfold parseTenantCredentials, dropHeader, Headers_get in *.
      cbn [req_headers]. rewrite Hkey, lookup_delete_eq, lookup_delete_ne; [reflexivity|].
      vm_compute. discriminate. }
    assert (Hnone : apiKey (parseTenantCredentials request) = None).
    { cbn [parseTenantCredentials apiKey]. now rewrite Hkey. }
    split; [exact Hnone|]. split.
    + unfold worker_fetch. rewrite Hcreds. reflexivity.
    + intros Hp Hm. rewrite (worker_fetch_mcp request Hp Hm).
      apply hasKey_resolved in Hnone. now rewrite Hnone.
  - intros Hurl.
    assert (Hnone : baseUrl (parseTenantCredentials request) = None).
    { cbn [parseTenantCredentials baseUrl]. now rewrite Hurl. }
    split; [exact Hnone|]. now rewrite new_client_baseUrl, Hnone.
  - intros credentials Hurl. now rewrite new_client_baseUrl, Hurl.
  - intros credentials. rewrite new_client_baseUrl.
    destruct (baseUrl credentials) as [url|]; [|discriminate].
    destruct (String.eqb_spec url ""); [discriminate | assumption].
Qed.

Lemma empty_header_values_are_absent_witness :
  let request := {| req_method := "POST"; req_pathname := "/mcp";
                    req_headers := {["x-coda-api-key" := ""; "x-coda-base-url" := ""]} |} in
  parseTenantCredentials request = {| apiKey := None; baseUrl := None |}
  /\ worker_fetch request = Respond unauthorizedResponse
  /\ this_baseUrl (createCodaClient (parseTenantCredentials request)) = API_BASE_URL.
Proof.
  intros request.
  destruct (empty_header_values_are_absent request) as (Hkey & Hurl & _).
  destruct (Hkey eq_refl) as (Hnone & _ & H401).
  destruct (Hurl eq_refl) as (Hbase & Hdefault).
  split; [|split; [apply H401; reflexivity | exact Hdefault]].
  destruct (parseTenantCredentials request) as [k u]. cbn in Hnone, Hbase.
  now rewrite Hnone, Hbase.
Defined.

Example empty_api_key_header_is_401 :
  worker_fetch {| req_method := "POST"; req_pathname := "/mcp";
                  req_headers := {["x-coda-api-key" := ""]} |}
  = Respond unauthorizedResponse.
Proof. vm_compute. reflexivity. Qed.

(* ********************************************************************* *)
(** * Further properties of the client, the resolver and the worker *)
(* ********************************************************************* *)

(* ===================================================================== *)
(** * Responses: which statuses return and which throw *)
(* ===================================================================== *)





(** X2. The text of a [CodaApiError]: the [message] field of the error
    body when it is truthy, else its [error] field when that is truthy,
    else [API error: <status>]. The default is also what remains when the
    body is not JSON, or is JSON but not an object (reading a field of
    [null] throws inside the [try]); extracting the text never fails. *)
Theorem error_text_precedence `{Runtime} (errorBody : string) (st : Z) :
  let text := errorMessageOf errorBody (apiErrorText st) in
  (forall why, JSON_parse errorBody = inr why -> text = apiErrorText st)
  /\ (forall fields,
        JSON_parse errorBody = inl (JObj fields) ->
        let field k := default JUndefined (assocLookup k fields) in
        text = if truthy (field "message") then field "message"
               else if truthy (field "error") then field "error"
               else apiErrorText st)
  /\ (forall v, JSON_parse errorBody = inl v ->
                (forall fields, v <> JObj fields) -> text = apiErrorText st).
Proof.
  intros text. subst text. unfold errorMessageOf, js_or. split; [|split].
  - intros why ->. reflexivity.
  - intros fields ->. cbn [getProp].
    destruct (assocLookup "message" fields) as [m|];
      destruct (assocLookup "error" fields) as [e|]; cbn [default from_option id];
      repeat match goal with
             | |- context [truthy ?x] => destruct (truthy x) eqn:?
             end; cbn [truthy] in *; congruence.
  - intros v -> Hobj. destruct v; try reflexivity. exfalso. now apply (Hobj fields).
Qed.

(* ===================================================================== *)
(** * Operations: what they add to [request] *)
(* ===================================================================== *)

Lemma paginated_any_log v log : paginated v log = (fst (paginated v []), log).
Proof.
  unfold paginated, prop. destruct (getProp v "items"); [|reflexivity].
  destruct (getProp v "nextPageToken"); [|reflexivity].
  destruct (getProp v "nextPageLink"); reflexivity.
Qed.

Section AfterRequest.
Context `{Runtime}.
Variable this : CodaClientImpl.

Lemma run_after_request op log log' v :
  op <> TestConnection ->
  request this (endpoint op) (options op) log = (Returns v, log') ->
  run this op log = (finish op v, log').
Proof.
  intros Hop Hreq.
  destruct op; try contradiction; cbn [run options] in *;
    unfold_operations; unfold mapM, bind, finish; cbn [isValueOp isVoidOp isListing];
    match goal with
    | Hreq : request _ ?E _ _ = _ |- context [request this ?p _] =>
        replace p with E
          by (symmetry;
              try match goal with
                  | |- context [default false ?o] => destruct o as [[|]|]
                  end; normalize_path)
    end;
    rewrite Hreq; try reflexivity.
  all: try (rewrite paginated_any_log; destruct (fst (paginated v [])); reflexivity).
  all: unfold prop; destruct (getProp v "items"); reflexivity.
Qed.

End AfterRequest.

Lemma getProp_none v k : getProp v k = None <-> isNullish v = true.
Proof. destruct v; cbn; try destruct (assocLookup k fields); split; congruence. Qed.

Lemma paginated_nullish v :
  isNullish v = true -> fst (paginated v []) = Throws (propertyTypeError v "items").
Proof.
  intros Hn. unfold paginated, prop.
  destruct (getProp v "items") eqn:E; [|reflexivity].
  apply (proj2 (getProp_none v "items")) in Hn. rewrite Hn in E. discriminate.
Qed.

Lemma paginated_not_nullish v :
  isNullish v = false -> exists page, fst (paginated v []) = Returns page.
Proof.
  intros Hn. unfold paginated, prop.
  assert (Hsome : forall k, exists x, getProp v k = Some x).
  { intros k. destruct (getProp v k) eqn:E; [eauto|].
    apply (proj1 (getProp_none v k)) in E. congruence. }
  destruct (Hsome "items") as [i ->], (Hsome "nextPageToken") as [t ->],
    (Hsome "nextPageLink") as [l ->]. eexists. reflexivity.
Qed.

(** X3. What an operation other than [testConnection] does with the value
    [request] returned. The 23 operations that return an entity or a
    mutation acknowledgment hand the parsed body back unchanged (so
    [requestId], [addedRowIds], [updatedRowIds] arrive as the remote API sent
    them); the four [void] operations drop it; the ones that read
    [response.items] (the nine listings and [listCategories]) fail with a
    [TypeError] exactly when the value is [undefined] or [null], which is
    what a 204 answer or a [null] body gives them. Nothing is fetched or
    read after [request]. *)
Theorem operations_after_request `{Runtime}
    (this : CodaClientImpl) (op : Operation) (log log' : list Event) (v : JSValue) :
  op <> TestConnection ->
  request this (endpoint op) (options op) log = (Returns v, log') ->
  snd (run this op log) = log'
  /\ (isValueOp op = true -> outcome (run this op) log = Returns (ResValue v))
  /\ (isVoidOp op = true -> outcome (run this op) log = Returns ResVoid)
  /\ (readsItems op = true ->
        (isNullish v = true ->
           outcome (run this op) log = Throws (propertyTypeError v "items"))
        /\ (isNullish v = false ->
              exists result, outcome (run this op) log = Returns result)).
Proof.
  intros Hop Hreq. unfold outcome.
  rewrite (run_after_request this op log log' v Hop Hreq). cbn [fst snd].
  split; [reflexivity|]. unfold finish. split; [|split].
  - intros ->. reflexivity.
  - intros Hv.
    assert (Hnv : isValueOp op = false) by (destruct op; try reflexivity; discriminate Hv).
    now rewrite Hnv, Hv.
  - intros Hr. unfold readsItems in Hr.
    assert (Hnv : isValueOp op = false) by (destruct op; try reflexivity; discriminate Hr).
    assert (Hnd : isVoidOp op = false) by (destruct op; try reflexivity; discriminate Hr).
    rewrite Hnv, Hnd. destruct (isListing op); split; intros Hn.
    + now rewrite (paginated_nullish v Hn).
    + destruct (paginated_not_nullish v Hn) as [page ->]. eauto.
    + apply (proj2 (getProp_none v "items")) in Hn. now rewrite Hn.
    + destruct (getProp v "items") eqn:E; [eauto|].
      apply (proj1 (getProp_none v "items")) in E. congruence.
Qed.

Lemma operations_after_request_witness :
  let ack := JObj [("requestId", JStr "mutate:7"); ("addedRowIds", JArr [JStr "i-1"])] in
  let R := fixedRuntime (respondsWith 202 ∅ "ACK") "ACK" ack in
  let this := createCodaClient {| apiKey := Some "key"; baseUrl := None |} in
  outcome (@run R this (UpsertRows "d" "t" (JObj [("rows", JArr [])]) None)) []
  = Returns (ResValue ack).
Proof.
  intros ack R this.
  apply (@operations_after_request R this
           (UpsertRows "d" "t" (JObj [("rows", JArr [])]) None) []
           [EvFetch (outboundCall this "/docs/d/tables/t/rows"
                       (withBody "POST" (JObj [("rows", JArr [])]))
                       (bearerHeaders "key")); EvJson]
           ack ltac:(discriminate) eq_refl).
  reflexivity.
Defined.



Section OperationEffects.
Context `{Runtime}.
Variable this : CodaClientImpl.

Lemma run_effects op log :
  effects (run this op) log =
    match getAuthHeaders this with
    | Throws _ => []
    | Returns auth =>
        let call := outboundCall this (endpoint op) (options op) auth in
        EvFetch call ::
          match upstream log call with
          | Rejects _ => []
          | Responds r =>
              if (status r =? 429) || (status r =? 401) || (status r =? 403)
                 || (ok r && (status r =? 204))
              then []
              else [if ok r then EvJson else EvText]
          end
    end.
Proof.
  unfold effects. rewrite run_request_log, request_log.
  destruct (getAuthHeaders this) as [auth|err].
  - cbn zeta. unfold record.
    destruct (upstream log _) as [r|msg].
    + destruct (_ || _); rewrite <- ?(assoc_L (++)), drop_app_length; reflexivity.
    + rewrite drop_app_length. reflexivity.
  - rewrite drop_all. reflexivity.
Qed.

End OperationEffects.

(** X5. No operation retries, polls or follows up. Whatever the remote API
    does, an operation of a client with a key makes exactly one outbound
    call, which comes first, and reads the body of the answer at most once:
    as text for an error status other than 429, 401 and 403, as JSON for a
    success other than 204, and not at all otherwise (also when [fetch]
    itself fails). *)
Theorem operations_call_once `{Runtime}
    (this : CodaClientImpl) (op : Operation) (log : list Event) :
  effects (run this op) log =
    match getAuthHeaders this with
    | Throws _ => []
    | Returns auth =>
        let call := outboundCall this (endpoint op) (options op) auth in
        EvFetch call ::
          match upstream log call with
          | Rejects _ => []
          | Responds r =>
              if (status r =? 429) || (status r =? 401) || (status r =? 403)
                 || (ok r && (status r =? 204))
              then []
              else [if ok r then EvJson else EvText]
          end
    end
  /\ (length (fetchCalls (effects (run this op) log)) <= 1)%nat
  /\ (length (effects (run this op) log) <= 2)%nat.
Proof.
  split; [apply run_effects|].
  rewrite run_effects. destruct (getAuthHeaders this) as [auth|err]; cbn zeta.
  - destruct (upstream log _) as [r|msg];
      [destruct (_ || _); [|destruct (ok r)]|];
      cbn [fetchCalls flat_map length app]; split; lia.
  - cbn [fetchCalls flat_map length]. split; lia.
Qed.


(* ===================================================================== *)
(** * Paths and query strings: nothing collides, nothing leaks *)
(* ===================================================================== *)









Lemma allChars_append P (a b : string) :
  allChars P (a +:+ b) = allChars P a && allChars P b.
Proof.
  induction a as [|x a IH]; cbn [String.append allChars]; [reflexivity|].
  now rewrite IH, andb_assoc.
Qed.

Lemma countChar_append c (a b : string) :
  countChar c (a +:+ b) = (countChar c a + countChar c b)%nat.
Proof.
  induction a as [|x a IH]; cbn [String.append countChar]; [reflexivity|].
  rewrite IH. lia.
Qed.

Lemma allChars_weaken (P Q : ascii -> bool) s :
  (forall c, P c = true -> Q c = true) -> allChars P s = true -> allChars Q s = true.
Proof.
  intros HPQ. induction s as [|x s IH]; cbn [allChars]; [trivial|].
  intros Hs. apply andb_true_iff in Hs as [Hx Hs]. now rewrite (HPQ x Hx), IH.
Qed.

Lemma allChars_countChar P c s :
  P c = false -> allChars P s = true -> countChar c s = O.
Proof.
  intros Hc. induction s as [|x s IH]; cbn [allChars countChar]; [reflexivity|].
  intros Hs. apply andb_true_iff in Hs as [Hx Hs]. rewrite (IH Hs).
  destruct (Ascii.eqb_spec c x) as [->|]; [congruence | reflexivity].
Qed.

Lemma percentEncodeByte_chars (c : ascii) :
  allChars (fun x => isAlnum x || Ascii.eqb x "%") (percentEncodeByte c) = true.
Proof. destruct c as [[] [] [] [] [] [] [] []]; vm_compute; reflexivity. Qed.


Lemma formUrlencoded_chars (s : string) :
  allChars (fun x => formSafe x || charIn x ["%"; "+"]%char) (formUrlencoded s) = true.
Proof.
  induction s as [|x s IH]; cbn [formUrlencoded]; [reflexivity|].
  rewrite allChars_append, IH, andb_true_r. unfold formUrlencodedByte.
  destruct (Ascii.eqb x " "); [reflexivity|].
  fold (formSafe x). destruct (formSafe x) eqn:Hx.
  - cbn [allChars]. now rewrite Hx.
  - eapply allChars_weaken; [|apply percentEncodeByte_chars].
    intros c Hc. unfold formSafe. apply orb_true_iff in Hc as [->|Hc]; [reflexivity|].
    apply Ascii.eqb_eq in Hc. subst c. reflexivity.
Qed.










Example endpoint_characters_example :
  endpoint (ListRows "d#1" "t 2" (Some [("query", JStr "a&b=c#d /e?f")]))
  = "/docs/d%231/tables/t%202/rows?query=a%26b%3Dc%23d+%2Fe%3Ff".
Proof. reflexivity. Qed.

Lemma buildQueryString_pairs params :
  List.NoDup (List.map fst params) ->
  buildQueryString params =
    match queryPairs params with
    | [] => ""
    | pairs => "?" +:+ usp_toString pairs
    end.
Proof.
  intros Hnd. unfold buildQueryString.
  change (fold_left _ params []) with (fold_left queryStep params []).
  rewrite fold_queryStep by (assumption || (intros k [])).
  cbn [app]. rewrite usp_toString_truthy. destruct (queryPairs params); reflexivity.
Qed.

Lemma usp_toString_counts (q : URLSearchParams) :
  countChar "=" (usp_toString q) = length q
  /\ countChar "&" (usp_toString q) = (length q - 1)%nat.
Proof.
  unfold usp_toString.
  assert (Hp : forall k v,
             countChar "=" (formUrlencoded k +:+ "=" +:+ formUrlencoded v) = 1%nat
             /\ countChar "&" (formUrlencoded k +:+ "=" +:+ formUrlencoded v) = O).
  { intros k v. rewrite !countChar_append.
    rewrite !(allChars_countChar _ "=" _ eq_refl (formUrlencoded_chars _)).
    rewrite !(allChars_countChar _ "&" _ eq_refl (formUrlencoded_chars _)).
    split; reflexivity. }
  induction q as [|[k v] q IH]; [split; reflexivity|].
  destruct (Hp k v) as [He Ha]. cbn [List.map]. destruct q as [|[k' v'] q].
  - cbn [List.map joinWith length]. split; assumption.
  - change (joinWith "&" (?x :: List.map ?f ((k', v') :: q)))
      with (x +:+ "&" +:+ joinWith "&" (List.map f ((k', v') :: q))).
    destruct IH as [IHe IHa].
    remember (formUrlencoded k +:+ "=" +:+ formUrlencoded v) as P.
    remember (joinWith "&" _) as J.
    rewrite !countChar_append, He, Ha, IHe, IHa.
    cbn [countChar length]. change (Ascii.eqb "=" "&") with false.
    change (Ascii.eqb "&" "&") with true. split; lia.
Qed.

(** X9. A parameter value cannot forge a parameter. On the entries of an
    object, the query string holds exactly one [=] per pair the builder was
    given (one per scalar, one per element of a sequence) and one [&]
    between two pairs: every [=] and [&] inside a key or a value is
    escaped. *)
Theorem query_pairs_cannot_be_forged (params : list (string * JSValue)) :
  List.NoDup (List.map fst params) ->
  countChar "=" (buildQueryString params) = length (queryPairs params)
  /\ countChar "&" (buildQueryString params) = (length (queryPairs params) - 1)%nat.
Proof.
  intros Hnd. rewrite (buildQueryString_pairs params Hnd).
  destruct (queryPairs params) as [|p pairs]; [split; reflexivity|].
  destruct (usp_toString_counts (p :: pairs)) as [He Ha].
  cbn [String.append countChar].
  change (Ascii.eqb "=" "?") with false. change (Ascii.eqb "&" "?") with false.
  rewrite He, Ha. split; reflexivity.
Qed.

Lemma query_pairs_cannot_be_forged_witness :
  let params := [("query", JStr "Status=Done&limit=500"); ("limit", JNum (Finite 20))] in
  buildQueryString params = "?query=Status%3DDone%26limit%3D500&limit=20"
  /\ countChar "=" (buildQueryString params) = 2%nat
  /\ countChar "&" (buildQueryString params) = 1%nat.
Proof.
  intros params. split; [reflexivity|].
  exact (query_pairs_cannot_be_forged params ltac:(nodup_keys)).
Defined.

(* ===================================================================== *)
(** * Numbers written in decimal are read back *)
(* ===================================================================== *)

Lemma digitsValue_step (acc : option Z) (c : ascii) (r : string) :
  isDigit c = true ->
  digitsValue acc (String c r)
  = digitsValue (Some (10 * default 0 acc + Z.of_N (code c - 48))) r.
Proof. intros Hd. cbn [digitsValue]. now rewrite Hd. Qed.

Ltac digit_step :=
  rewrite digitsValue_step by reflexivity;
  cbn [default from_option id].

Lemma digitsValue_acc (d : Decimal.uint) (acc : positive) :
  digitsValue (Some (Z.pos acc)) (NilEmpty.string_of_uint d)
  = Some (Z.pos (Pos.of_uint_acc d acc)).
Proof.
  revert acc.
  induction d as [|d IH|d IH|d IH|d IH|d IH|d IH|d IH|d IH|d IH|d IH]; intros acc;
    cbn [NilEmpty.string_of_uint Pos.of_uint_acc]; [reflexivity|..];
    digit_step; rewrite <- IH; do 2 f_equal;
    match goal with |- context [Z.of_N ?n] => let v := eval vm_compute in (Z.of_N n) in
                                              change (Z.of_N n) with v end;
    lia.
Qed.

Lemma digitsValue_zero (d : Decimal.uint) :
  digitsValue (Some 0) (NilEmpty.string_of_uint d) = Some (Z.of_N (Pos.of_uint d)).
Proof.
  induction d as [|d IH|d IH|d IH|d IH|d IH|d IH|d IH|d IH|d IH|d IH];
    cbn [NilEmpty.string_of_uint Pos.of_uint]; [reflexivity|..];
    digit_step;
    match goal with |- context [Z.of_N (code ?c - 48)] =>
      let v := eval vm_compute in (10 * 0 + Z.of_N (code c - 48)) in
      change (10 * 0 + Z.of_N (code c - 48)) with v end;
    [exact IH | apply digitsValue_acc ..].
Qed.

Lemma digitsValue_none (d : Decimal.uint) :
  d <> Decimal.Nil ->
  digitsValue None (NilEmpty.string_of_uint d) = Some (Z.of_N (Pos.of_uint d)).
Proof.
  intros Hd. rewrite <- digitsValue_zero.
  destruct d; [contradiction|..]; cbn [NilEmpty.string_of_uint];
    rewrite !digitsValue_step by reflexivity; reflexivity.
Qed.

Lemma string_of_uint_first (d : Decimal.uint) :
  d <> Decimal.Nil ->
  exists c r, NilEmpty.string_of_uint d = String c r /\ isDigit c = true.
Proof.
  intros Hd. destruct d; [contradiction|..]; cbn [NilEmpty.string_of_uint];
    do 2 eexists; split; reflexivity.
Qed.

Lemma isDigit_cases (c : ascii) :
  isDigit c = true -> In c ["0"; "1"; "2"; "3"; "4"; "5"; "6"; "7"; "8"; "9"]%char.
Proof.
  destruct c as [[] [] [] [] [] [] [] []]; vm_compute; intros Hd;
    try discriminate Hd; tauto.
Qed.

Lemma parseInt10_digits (c : ascii) (r : string) :
  isDigit c = true ->
  parseInt10 (String c r) =
    match digitsValue None (String c r) with
    | Some v => Finite (1 * v)
    | None => NaN
    end.
Proof.
  intros Hd. apply isDigit_cases in Hd.
  repeat (destruct Hd as [<-|Hd]; [reflexivity|]). destruct Hd.
Qed.

Lemma parseInt10_minus_digits (c : ascii) (r : string) :
  isDigit c = true ->
  parseInt10 (String "-" (String c r)) =
    match digitsValue None (String c r) with
    | Some v => Finite (-1 * v)
    | None => NaN
    end.
Proof.
  intros Hd. apply isDigit_cases in Hd.
  repeat (destruct Hd as [<-|Hd]; [reflexivity|]). destruct Hd.
Qed.

(** [parseInt(String(z), 10)] is [z]. *)
Lemma parseInt10_stringOfZ (z : Z) : parseInt10 (stringOfZ z) = Finite z.
Proof.
  unfold stringOfZ. destruct z as [|p|p]; [reflexivity| |];
    cbn [Z.to_int NilZero.string_of_int];
    pose proof (DecimalPos.Unsigned.to_uint_nonnil p) as Hnn;
    unfold NilZero.string_of_uint;
    destruct (Pos.to_uint p) eqn:Hu; try contradiction; rewrite <- Hu in *;
    destruct (string_of_uint_first _ Hnn) as (c & r & Hs & Hd);
    pose proof (digitsValue_none _ Hnn) as Hv; rewrite Hs in *;
    rewrite ?(parseInt10_digits c r Hd), ?(parseInt10_minus_digits c r Hd), Hv;
    rewrite DecimalPos.Unsigned.of_to; f_equal.
Qed.

(** X10. A 429 answer whose [Retry-After] header is an integer written in
    decimal makes [request] fail with a [RateLimitError] carrying exactly
    that integer, for every integer: zero and negative delays are not
    replaced by the default or rejected. *)
Theorem retry_after_decimal_is_read_back `{Runtime}
    (this : CodaClientImpl) (endpoint : string) (options : RequestInit)
    (log : list Event) (auth : gmap string string) (r : Response) (z : Z) :
  getAuthHeaders this = Returns auth ->
  upstream log (outboundCall this endpoint options auth) = Responds r ->
  status r = 429 ->
  Headers_get (headers r) "Retry-After" = Some (stringOfZ z) ->
  Z.abs z < 2 ^ 53 ->
  outcome (request this endpoint options) log
  = Throws (RateLimitError "Rate limit exceeded" (Finite z)).
Proof.
  intros Hauth Hup H429 Hhdr _. unfold outcome.
  pose proof (request_responds this endpoint options log auth r Hauth Hup) as Hreq.
  cbn zeta in Hreq. rewrite Hreq, H429. cbn [Z.eqb Pos.eqb fst].
  unfold retryAfterOf. rewrite Hhdr, parseInt10_stringOfZ.
  assert (Hne : truthyString (stringOfZ z) = true).
  { unfold truthyString. apply negb_true_iff, String.eqb_neq. intros Hempty.
    pose proof (parseInt10_stringOfZ z) as Hp. rewrite Hempty in Hp. discriminate Hp. }
  now rewrite Hne.
Qed.

Lemma retry_after_decimal_is_read_back_witness :
  let R := fixedRuntime (respondsWith 429 {["retry-after" := "0"]} "") "{}" (JObj []) in
  let this := createCodaClient {| apiKey := Some "key"; baseUrl := None |} in
  outcome (@request R this "/whoami" noOptions) []
  = Throws (RateLimitError "Rate limit exceeded" (Finite 0)).
Proof.
  intros R this.
  apply (@retry_after_decimal_is_read_back R this "/whoami" noOptions []
           (bearerHeaders "key")
           {| status := 429; headers := {["retry-after" := "0"]}; body := "" |} 0
           eq_refl eq_refl eq_refl).
  - vm_compute. reflexivity.
  - reflexivity.
Defined.

(* ===================================================================== *)
(** * Environment configuration *)
(* ===================================================================== *)


Example env_limits_example :
  let env := {| CHARACTER_LIMIT := JStr "abc"; DEFAULT_PAGE_SIZE := JStr "-5";
                MAX_PAGE_SIZE := JUndefined; CACHE_KV := JUndefined;
                MCP_SESSIONS := JObj []; AI := JUndefined |} in
  getCharacterLimit env = Finite 50000
  /\ getDefaultPageSize env = Finite (-5)
  /\ getMaxPageSize env = Finite 100
  /\ getEnvNumber env KEY_MCP_SESSIONS (Finite 7) = Finite 7.
Proof. repeat split; reflexivity. Qed.

(* ===================================================================== *)
(** * The worker: routing, and a request end to end *)
(* ===================================================================== *)

Lemma worker_fetch_other (request : Request) :
  (String.eqb (req_pathname request) "/mcp" && String.eqb (req_method request) "POST")
  = false ->
  exists resp, worker_fetch request = Respond resp
               /\ (w_status resp = 200 \/ w_status resp = 501).
Proof.
  intros Hr. unfold worker_fetch. rewrite Hr.
  destruct (String.eqb (req_pathname request) "/health"); [eexists; split; [reflexivity|now left]|].
  destruct (String.eqb (req_pathname request) "/sse"); eexists; split;
    try reflexivity; [now right | now left].
Qed.

(** X12. Routing of the worker. A client is built for a request exactly
    when it is a POST to [/mcp] carrying a non-empty [X-Coda-API-Key], and
    then from the credentials of that request; status 401 is answered
    exactly to a POST to [/mcp] without such a key. Every other request is
    answered without looking at its credentials, with status 200 or 501: in
    particular [/health] answers 200 to any method and headers, and a GET
    to [/mcp] gets the server description, not an error. *)
Theorem worker_routing (request : Request) :
  (forall client,
     worker_fetch request = ServeMcp client
     <-> req_pathname request = "/mcp" /\ req_method request = "POST"
         /\ hasKey (parseTenantCredentials request) = true
         /\ client = createCodaClient (parseTenantCredentials request))
  /\ (forall resp,
        worker_fetch request = Respond resp ->
        (w_status resp = 401
         <-> req_pathname request = "/mcp" /\ req_method request = "POST"
             /\ hasKey (parseTenantCredentials request) = false)
        /\ (w_status resp = 200 \/ w_status resp = 401 \/ w_status resp = 501))
  /\ (req_pathname request = "/health" -> worker_fetch request = Respond healthResponse)
  /\ (req_method request <> "POST" ->
        exists resp, worker_fetch request = Respond resp /\ w_status resp <> 401).
Proof.
  destruct (String.eqb (req_pathname request) "/mcp"
            && String.eqb (req_method request) "POST") eqn:Hroute.
  - apply andb_true_iff in Hroute as [Hp Hm].
    apply String.eqb_eq in Hp, Hm.
    pose proof (worker_fetch_mcp request Hp Hm) as Hf.
    split; [|split; [|split]].
    + intros client. rewrite Hf. destruct (hasKey _); split.
      * intros [= <-]. repeat split; assumption.
      * intros (_ & _ & _ & ->). reflexivity.
      * discriminate.
      * intros (_ & _ & Hk & _). discriminate.
    + intros resp. rewrite Hf. destruct (hasKey _); [discriminate|].
      intros [= <-]. split; [|right; left; reflexivity].
      split; [intros _; repeat split; assumption | reflexivity].
    + intros Hh. rewrite Hp in Hh. discriminate.
    + intros Hn. contradiction.
  - destruct (worker_fetch_other request Hroute) as (resp & Hf & Hst).
    assert (Hnot : ~ (req_pathname request = "/mcp" /\ req_method request = "POST")).
    { intros [Hp Hm]. rewrite Hp, Hm in Hroute. discriminate. }
    split; [|split; [|split]].
    + intros client. rewrite Hf. split; [discriminate|].
      intros (Hp & Hm & _). exfalso. now apply Hnot.
    + intros resp'. rewrite Hf. intros [= <-]. split.
      * split; [intros H401; destruct Hst as [Hs|Hs]; rewrite Hs in H401; discriminate|].
        intros (Hp & Hm & _). exfalso. now apply Hnot.
      * destruct Hst; tauto.
    + intros Hh. unfold worker_fetch. now rewrite Hh.
    + intros _. exists resp. split; [exact Hf|].
      destruct Hst as [Hs|Hs]; rewrite Hs; discriminate.
Qed.

Example get_mcp_is_described_not_refused :
  worker_fetch {| req_method := "GET"; req_pathname := "/mcp"; req_headers := ∅ |}
  = Respond {| w_status := 200; w_headers := jsonHeaders; w_body := JsonBody serverInfo |}.
Proof. reflexivity. Qed.

(** X13. A request end to end. When the worker builds a client for a
    request, every operation of that client makes one call, to the base
    URL the request named in [X-Coda-Base-URL] (the default when the header
    is absent or empty) followed by the endpoint of the operation, with
    the bearer header of the key the request carried. The key is thus sent
    to whatever base URL the caller names. *)
Theorem tenant_request_end_to_end `{Runtime}
    (request : Request) (client : CodaClientImpl) (op : Operation) (log : list Event) :
  worker_fetch request = ServeMcp client ->
  exists key call,
    Headers_get (req_headers request) "X-Coda-API-Key" = Some key
    /\ fetchCalls (effects (run client op) log) = [call]
    /\ call_url call = requestedBaseUrl request +:+ endpoint op
    /\ call_headers call = bearerHeaders key
    /\ call_method call = init_method (options op)
    /\ call_body call = init_body (options op).
Proof.
  intros Hserve.
  destruct (worker_client_of_own_request request client Hserve)
    as (-> & key & Hne & Hkey & Hstored).
  exists key. eexists. split; [exact Hkey|].
  rewrite run_calls, getAuthHeaders_spec. unfold hasKey. rewrite Hstored.
  cbn [ofOptString truthy default from_option id].
  apply String.eqb_neq in Hne. rewrite Hne. cbn [negb].
  split; [reflexivity|]. split.
  - cbn [outboundCall call_url]. f_equal. rewrite new_client_baseUrl.
    unfold requestedBaseUrl. cbn [parseTenantCredentials baseUrl].
    destruct (Headers_get (req_headers request) "X-Coda-Base-URL") as [url|];
      cbn [orUndefined]; [|reflexivity].
    unfold truthyString. destruct (String.eqb url "") eqn:Hu; cbn [negb]; [reflexivity|].
    now rewrite Hu.
  - split; [apply headers_outboundCall|]. split; reflexivity.
Qed.

Lemma tenant_request_end_to_end_witness :
  let R := fixedRuntime (respondsWith 200 ∅ "{}") "{}" (JObj []) in
  let request := {| req_method := "POST"; req_pathname := "/mcp";
                    req_headers := {["x-coda-api-key" := "tenant-key";
                                     "x-coda-base-url" := "https://proxy.example/v1"]} |} in
  exists client call,
    worker_fetch request = ServeMcp client
    /\ fetchCalls (effects (@run R client (GetDoc "d 1")) []) = [call]
    /\ call_url call = "https://proxy.example/v1/docs/d%201"
    /\ authorization call = Some "Bearer tenant-key".
Proof.
  intros R request.
  exists (createCodaClient (parseTenantCredentials request)).
  destruct (@tenant_request_end_to_end R request
              (createCodaClient (parseTenantCredentials request)) (GetDoc "d 1") []
              eq_refl) as (key & call & Hkey & Hcalls & Hurl & Hhdr & _).
  exists call. split; [reflexivity|]. split; [exact Hcalls|].
  assert (key = "tenant-key") as -> by (vm_compute in Hkey; congruence).
  split; [rewrite Hurl; reflexivity|].
  unfold authorization. rewrite Hhdr. reflexivity.
Defined.

(* ===================================================================== *)
(** * The connection-test tool *)
(* ===================================================================== *)

Lemma testConnection_returns `{Runtime} (this : CodaClientImpl) (log : list Event) :
  exists connected message,
    testConnection this log
    = (Returns (connected, message), snd (request this "/whoami" noOptions log))
    /\ (connected = true ->
        exists user, outcome (request this "/whoami" noOptions) log = Returns user
                     /\ isNullish user = false).
Proof.
  unfold testConnection, whoami, bind, tryCatch, outcome, prop.
  destruct (request this "/whoami" noOptions log) as [[user|e] log'] eqn:Hreq; cbn [fst snd].
  - destruct (getProp user "name") as [name|] eqn:Hname.
    + do 2 eexists. split; [reflexivity|]. intros _. exists user. split; [reflexivity|].
      destruct (isNullish user) eqn:Hn; [|reflexivity].
      apply (proj2 (getProp_none user "name")) in Hn. congruence.
    + do 2 eexists. split; [reflexivity|]. discriminate.
  - do 2 eexists. split; [reflexivity|]. discriminate.
Qed.

(** X14. The [coda_test_connection] tool never answers with [isError]:
    [testConnection] turns every failure into [connected: false], so the
    [catch] of the handler is never entered. A missing key, a refused key, a
    rate limit or an unreachable API all come back as an ordinary answer
    whose JSON says [connected: false]; [connected: true] is only reported
    when [whoami] returned a value. *)
Theorem connection_tool_never_reports_error `{Runtime}
    (client : CodaClientImpl) (log : list Event) :
  exists connected message,
    coda_test_connection client log
    = (Returns {| content := JsonText (JObj [("connected", JBool connected);
                                             ("message", JStr message)]);
                  isError := None |},
       snd (request client "/whoami" noOptions log))
    /\ (connected = true ->
        exists user, outcome (request client "/whoami" noOptions) log = Returns user
                     /\ isNullish user = false).
Proof.
  destruct (testConnection_returns client log) as (connected & message & Ht & Hc).
  exists connected, message. split; [|exact Hc].
  unfold coda_test_connection, tryCatch, bind. rewrite Ht. reflexivity.
Qed.

(* ===================================================================== *)
(** * Which parameters the query-string builder drops *)
(* ===================================================================== *)

Lemma usp_set_not_nil q k v : usp_set q k v <> [].
Proof.
  destruct q as [|[k' v'] q]; cbn [usp_set]; [discriminate|].
  destruct (String.eqb k' k); discriminate.
Qed.

Lemma queryStep_nil q k v :
  queryStep q (k, v) = [] <-> q = [] /\ isDropped v = true.
Proof.
  destruct v; cbn [queryStep isDropped];
    try (split; [intros ->; split; reflexivity | intros [-> _]; reflexivity]);
    try (split; [intros Hs; now apply usp_set_not_nil in Hs | intros [_ Hd]; discriminate]).
  rewrite fold_usp_append. split.
  - intros Happ. apply app_eq_nil in Happ as [-> Hmap].
    destruct l; [split; reflexivity | discriminate].
  - intros [-> Hd]. destruct l; [reflexivity | discriminate].
Qed.

Lemma fold_queryStep_nil params q :
  fold_left queryStep params q = []
  <-> q = [] /\ forallb (fun entry => isDropped (snd entry)) params = true.
Proof.
  revert q. induction params as [|[k v] params IH]; intros q; cbn [fold_left forallb snd].
  - split; [intros ->; split; reflexivity | intros [-> _]; reflexivity].
  - rewrite IH, queryStep_nil, andb_true_iff. tauto.
Qed.

(** X15. The builder drops a parameter only when its value is
    [undefined], [null] or a sequence without elements; it does not go by
    truthiness. The query string is empty exactly when every value is of
    that kind, so [false], [0] and the empty string are all sent
    ([visibleOnly=false], [limit=0], [pageToken=]). This holds for any
    list of entries. *)
Theorem only_absent_values_are_dropped (params : list (string * JSValue)) :
  (buildQueryString params = ""
   <-> forallb (fun entry => isDropped (snd entry)) params = true)
  /\ (forall k b, buildQueryString [(k, JBool b)] <> "")
  /\ (forall k z, buildQueryString [(k, JNum (Finite z))] <> "")
  /\ (forall k s, buildQueryString [(k, JStr s)]
                  = "?" +:+ formUrlencoded k +:+ "=" +:+ formUrlencoded s).
Proof.
  assert (Hempty : forall ps, buildQueryString ps = ""
                    <-> forallb (fun entry => isDropped (snd entry)) ps = true).
  { intros ps. unfold buildQueryString.
    change (fold_left _ ps []) with (fold_left queryStep ps []).
    rewrite usp_toString_truthy.
    pose proof (fold_queryStep_nil ps []) as Hnil.
    destruct (fold_left queryStep ps []) as [|p q].
    - split; [intros _; now apply Hnil | reflexivity].
    - split; [discriminate|]. intros Hd.
      destruct Hnil as [_ Hnil]. now specialize (Hnil (conj eq_refl Hd)). }
  split; [apply Hempty|]. split; [|split].
  - intros k b Hq. apply Hempty in Hq. discriminate Hq.
  - intros k z Hq. apply Hempty in Hq. discriminate Hq.
  - intros k s. unfold buildQueryString. cbn [fold_left usp_set js_String].
    rewrite usp_toString_truthy. reflexivity.
Qed.

Example resolveBrowserLink_endpoint (url : string) :
  endpoint (ResolveBrowserLink url None)
  = "/resolveBrowserLink?url=" +:+ formUrlencoded url +:+ "&degradeGracefully=false".
Proof.
  unfold endpoint. cbn [template List.map render joinWith query default from_option id].
  unfold buildQueryString. cbn [fold_left usp_set usp_remove js_String String.eqb Ascii.eqb Bool.eqb].
  rewrite usp_toString_truthy. reflexivity.
Qed.
